(** * Zoho CRM to Twenty CRM migration scripts: a shallow embedding

    The repository holds two Node scripts, the task migration
    (src/taskMigration.ts) and the contact migration.  Each one validates
    its environment, fetches every record of one entity with a single GET,
    maps the records, and posts them batch by batch.

    The embedding follows the scripts function by function.  Effects
    (HTTP calls, logging, the clock, the inter-batch pause, process exit)
    are threaded through a small state-and-exception monad whose state is
    the trace of what the process did.  What the scripts do not define
    themselves (the clock, the servers' answers, the engine's date parser,
    the URL check of the validation library) is a parameter. *)

From Stdlib Require Import ZArith List String Ascii Bool Lia.
Import ListNotations.
Local Open Scope string_scope.
Local Open Scope Z_scope.

Declare Scope option_scope.
Delimit Scope option_scope with opt.
Notation "' p <- e ;; k" :=
  (match e with Some p => k | None => None end)
  (at level 61, p pattern, e at next level, right associativity) : option_scope.
Notation "x <- e ;; k" :=
  (match e with Some x => k | None => None end)
  (at level 61, e at next level, right associativity) : option_scope.

(** ** JavaScript numbers, as far as the scripts use them *)

(** [JInt z] is a Number holding the integer [z] exactly, [JNaN] is NaN,
    and [JOther] is any Number this development does not compute (a
    fraction, an infinity, an integer too large to be exact, the value of
    a literal outside the plain decimal integers).  Control flow that
    would depend on a [JOther] stops the model with [NotModelled]. *)
Inductive JsNumber : Type :=
| JNaN
| JInt (z : Z)
| JOther.

(** [a + b] on Numbers. *)
Definition js_add (a b : JsNumber) : JsNumber :=
  match a, b with
  | JInt x, JInt y => JInt (x + y)
  | JNaN, JInt _ | JInt _, JNaN | JNaN, JNaN => JNaN
  | _, _ => JOther
  end.

(** [a < b]; a comparison with NaN is false; [None] when not computed. *)
Definition js_lt (a b : JsNumber) : option bool :=
  match a, b with
  | JInt x, JInt y => Some (x <? y)
  | JNaN, JInt _ | JInt _, JNaN | JNaN, JNaN => Some false
  | _, _ => None
  end.

(** [Math.floor(a / b)]: 0/0 is NaN, n/0 an infinity. *)
Definition js_floor_div (a b : JsNumber) : JsNumber :=
  match a, b with
  | JInt x, JInt y =>
      if y =? 0 then (if x =? 0 then JNaN else JOther) else JInt (x / y)
  | JNaN, JInt _ | JInt _, JNaN | JNaN, JNaN => JNaN
  | _, _ => JOther
  end.

(** [n || d] on Numbers: 0 and NaN are falsy. *)
Definition js_or (n d : JsNumber) : JsNumber :=
  match n with
  | JNaN => d
  | JInt z => if z =? 0 then d else n
  | JOther => JOther
  end.

(** ToIntegerOrInfinity, used by [Array.prototype.slice]: NaN reads as 0. *)
Definition ToIntegerOrInfinity (n : JsNumber) : option Z :=
  match n with
  | JNaN => Some 0
  | JInt z => Some z
  | JOther => None
  end.

(** *** [Number(string)] on the decimal integers *)

Definition is_js_space (c : ascii) : bool :=
  let n := nat_of_ascii c in
  (Nat.eqb n 9 || Nat.eqb n 10 || Nat.eqb n 11 || Nat.eqb n 12
   || Nat.eqb n 13 || Nat.eqb n 32)%bool.

Fixpoint trim_left (s : string) : string :=
  match s with
  | String c r => if is_js_space c then trim_left r else s
  | EmptyString => EmptyString
  end.

Fixpoint trim_right (s : string) : string :=
  match s with
  | String c r =>
      match trim_right r with
      | EmptyString => if is_js_space c then EmptyString else String c EmptyString
      | r' => String c r'
      end
  | EmptyString => EmptyString
  end.

Definition digit_val (c : ascii) : option Z :=
  let n := Z.of_nat (nat_of_ascii c) in
  if (48 <=? n) && (n <=? 57) then Some (n - 48) else None.

Definition digit_char (d : Z) : ascii := ascii_of_nat (48 + Z.to_nat d).

(** The value of a run of decimal digits, [None] when another character
    occurs or the run is empty. *)
Fixpoint digits_value (acc : Z) (s : string) : option Z :=
  match s with
  | String c EmptyString =>
      match digit_val c with Some d => Some (acc * 10 + d) | None => None end
  | String c r =>
      match digit_val c with
      | Some d => digits_value (acc * 10 + d) r
      | None => None
      end
  | EmptyString => None
  end.

(** Whether a trimmed, non-empty string can start a numeric literal: a
    digit, a sign, a dot, the I of Infinity; a byte outside ASCII may
    belong to a Unicode space, which this model does not trim. *)
Definition may_start_number (c : ascii) : bool :=
  let n := nat_of_ascii c in
  match digit_val c with
  | Some _ => true
  | None =>
      (Ascii.eqb c "+" || Ascii.eqb c "-" || Ascii.eqb c "." || Ascii.eqb c "I"
       || Nat.leb 128 n)%bool
  end.

(** [Number(s)]: the empty or blank string is 0, an optionally signed run
    of at most 15 decimal digits is that integer, a string that cannot
    start a numeric literal is NaN; every other string is [JOther]. *)
Definition Number (s : string) : JsNumber :=
  match trim_right (trim_left s) with
  | EmptyString => JInt 0
  | String c r as t =>
      let signed :=
        if Ascii.eqb c "-" then (-1, r)
        else if Ascii.eqb c "+" then (1, r) else (1, t) in
      match digits_value 0 (snd signed) with
      | Some v =>
          if (Z.of_nat (String.length (snd signed)) <=? 15)
          then JInt (fst signed * v) else JOther
      | None => if may_start_number c then JOther else JNaN
      end
  end.

(** ** The engine's dates

    A time value is a number of milliseconds since the epoch, at most
    8.64e15 in absolute value; [None] stands for the NaN of an invalid
    date. *)

Definition msPerDay : Z := 86400000.
Definition maxTime : Z := 8640000000000000.

Definition valid_time (t : Z) : Prop := - maxTime <= t <= maxTime.

Definition TimeClip (t : Z) : option Z :=
  if (- maxTime <=? t) && (t <=? maxTime) then Some t else None.

Definition DayFromYear (y : Z) : Z :=
  365 * (y - 1970) + (y - 1969) / 4 - (y - 1901) / 100 + (y - 1601) / 400.

Definition InLeapYear (y : Z) : bool :=
  ((y mod 4 =? 0) && negb (y mod 100 =? 0)) || (y mod 400 =? 0).

(** The largest year whose first day is not after day [d]: an estimate
    from the mean length of a year, corrected by at most one. *)
Definition YearFromDay (d : Z) : Z :=
  let y0 := 1970 + (400 * d) / 146097 in
  if DayFromYear (y0 + 1) <=? d then y0 + 1
  else if DayFromYear y0 <=? d then y0 else y0 - 1.

(** Days of the year before month [m] (1 to 12). *)
Definition cumDays (leap : bool) (m : Z) : Z :=
  let l := if leap then 1 else 0 in
  match m with
  | 1 => 0 | 2 => 31 | 3 => 59 + l | 4 => 90 + l | 5 => 120 + l | 6 => 151 + l
  | 7 => 181 + l | 8 => 212 + l | 9 => 243 + l | 10 => 273 + l | 11 => 304 + l
  | _ => 334 + l
  end.

Definition DaysInMonth (leap : bool) (m : Z) : Z :=
  match m with
  | 2 => if leap then 29 else 28
  | 4 | 6 | 9 | 11 => 30
  | _ => 31
  end.

Definition MonthFromDayInYear (leap : bool) (diy : Z) : Z :=
  let l := if leap then 1 else 0 in
  if diy <? 31 then 1 else if diy <? 59 + l then 2 else if diy <? 90 + l then 3
  else if diy <? 120 + l then 4 else if diy <? 151 + l then 5
  else if diy <? 181 + l then 6 else if diy <? 212 + l then 7
  else if diy <? 243 + l then 8 else if diy <? 273 + l then 9
  else if diy <? 304 + l then 10 else if diy <? 334 + l then 11 else 12.

Definition MakeDay (y m d : Z) : Z :=
  DayFromYear y + cumDays (InLeapYear y) m + d - 1.

(** [k] decimal digits of [n], most significant first. *)
Fixpoint pad (k : nat) (n : Z) : string :=
  match k with
  | O => EmptyString
  | S k' => String (digit_char ((n / 10 ^ Z.of_nat k') mod 10)) (pad k' n)
  end.

(** Years 0 to 9999 print with four digits, the others with a sign and
    six. *)
Definition year_string (y : Z) : string :=
  if (0 <=? y) && (y <=? 9999) then pad 4 y
  else (if y <? 0 then "-" else "+") ++ pad 6 (Z.abs y).

(** [Date.prototype.toISOString] of a valid time value:
    YYYY-MM-DDTHH:mm:ss.sssZ in UTC. *)
Definition toISOString (t : Z) : string :=
  let day := t / msPerDay in
  let ms := t mod msPerDay in
  let y := YearFromDay day in
  let leap := InLeapYear y in
  let diy := day - DayFromYear y in
  let m := MonthFromDayInYear leap diy in
  let d := diy - cumDays leap m + 1 in
  year_string y ++ "-" ++ pad 2 m ++ "-" ++ pad 2 d ++ "T"
    ++ pad 2 (ms / 3600000) ++ ":" ++ pad 2 ((ms / 60000) mod 60) ++ ":"
    ++ pad 2 ((ms / 1000) mod 60) ++ "." ++ pad 3 (ms mod 1000) ++ "Z".

(** *** Reading the date-time string format back *)

Fixpoint take_digits (k : nat) (acc : Z) (s : string) : option (Z * string) :=
  match k with
  | O => Some (acc, s)
  | S k' =>
      match s with
      | String c r =>
          match digit_val c with
          | Some d => take_digits k' (acc * 10 + d) r
          | None => None
          end
      | EmptyString => None
      end
  end.

Definition expect (c : ascii) (s : string) : option string :=
  match s with
  | String c' r => if Ascii.eqb c c' then Some r else None
  | EmptyString => None
  end.

Definition parse_year (s : string) : option (Z * string) :=
  match s with
  | String c r =>
      if Ascii.eqb c "+" then take_digits 6 0 r
      else if Ascii.eqb c "-" then
        match take_digits 6 0 r with
        | Some (y, r') => if y =? 0 then None else Some (- y, r')
        | None => None
        end
      else take_digits 4 0 s
  | EmptyString => None
  end.

Definition parse_time (s : string) : option Z :=
  ('(h, s) <- take_digits 2 0 s ;;
   s <- expect ":" s ;;
   '(mi, s) <- take_digits 2 0 s ;;
   s <- expect ":" s ;;
   '(sec, s) <- take_digits 2 0 s ;;
   s <- expect "." s ;;
   '(ms, s) <- take_digits 3 0 s ;;
   s <- expect "Z" s ;;
   match s with
   | EmptyString =>
       if (h <=? 23) && (mi <=? 59) && (sec <=? 59)
       then Some (h * 3600000 + mi * 60000 + sec * 1000 + ms)
       else None
   | _ => None
   end)%opt.

(** A strict reader of two forms of the date-time string format every
    engine accepts: the date alone (YYYY-MM-DD, midnight UTC) and the full
    form [toISOString] writes.  Everything else is an invalid date here. *)
Definition iso_parse (s : string) : option Z :=
  ('(y, s) <- parse_year s ;;
   s <- expect "-" s ;;
   '(m, s) <- take_digits 2 0 s ;;
   s <- expect "-" s ;;
   '(d, s) <- take_digits 2 0 s ;;
   if (1 <=? m) && (m <=? 12) && (1 <=? d) && (d <=? DaysInMonth (InLeapYear y) m)
   then
     match s with
     | EmptyString => TimeClip (MakeDay y m d * msPerDay)
     | String c s =>
         if Ascii.eqb c "T"
         then tm <- parse_time s ;; TimeClip (MakeDay y m d * msPerDay + tm)
         else None
     end
   else None)%opt.

(** ** Values the scripts exchange with the outside *)

(** What [error.response] of a rejected axios call holds: the HTTP status
    and [data.message] of the answer's body, when it has one (a string). *)
Record AxiosResponse : Type := mkResponse {
  response_status : Z;
  response_data_message : option string
}.

(** The error axios rejects with: a transport failure has no response, an
    answer outside 2xx has one. *)
Record AxiosErr : Type := mkAxiosErr {
  err_message : string;
  err_response : option AxiosResponse
}.

Inductive Nullish : Type := Undefined | Null.

(** What a [catch] around an axios call can receive: the rejection, or the
    engine's TypeError for a property read on undefined or null. *)
Inductive Caught : Type :=
| AxiosError (e : AxiosErr)
| EngineTypeError (message : string).

Inductive IssueCode : Type := invalid_type | invalid_string | too_small.

Record ZodIssue : Type := mkIssue { path : string; code : IssueCode }.

(** What propagates out of the scripts' functions. *)
Inductive Thrown : Type :=
| PlainError (message : string)     (* new Error(...) *)
| TypeError (message : string)
| ZodError (issues : list ZodIssue)
| Rethrown (e : Caught).

(** A value read from an object by key: a string the object owns, or the
    member of Object.prototype it inherits under that key. *)
Inductive JsProp : Type :=
| PString (s : string)
| PInherited (key : string).

Definition prop_truthy (v : JsProp) : bool :=
  match v with
  | PString s => negb (String.eqb s "")
  | PInherited _ => true
  end.

Definition Object_prototype : list string :=
  [ "constructor"; "__defineGetter__"; "__defineSetter__"; "hasOwnProperty";
    "__lookupGetter__"; "__lookupSetter__"; "isPrototypeOf";
    "propertyIsEnumerable"; "toString"; "valueOf"; "__proto__";
    "toLocaleString" ]%list.

Fixpoint own_property (o : list (string * string)) (k : string) : option string :=
  match o with
  | (k', v) :: r => if String.eqb k k' then Some v else own_property r k
  | [] => None
  end%list.

(** [o[k]] for an object literal [o] whose own values are strings:
    [None] is undefined. *)
Definition get_member (o : list (string * string)) (k : string) : option JsProp :=
  match own_property o k with
  | Some v => Some (PString v)
  | None =>
      if existsb (String.eqb k) Object_prototype then Some (PInherited k)
      else None
  end.

(** A piece of a template literal. *)
Inductive Piece : Type :=
| Lit (s : string)
| Num (n : JsNumber)
| Undef.

Inductive Level : Type := LevelInfo | LevelError.

Inductive Meta : Type :=
| NoMeta
| ApiMeta (statusCode : Z) (message : string)
| ErrorMeta (error : Thrown)
| IssuesMeta (errors : list ZodIssue).

(** The axios instance [createAxiosInstance] builds. *)
Record Client : Type := mkClient {
  baseURL : string;
  timeout : Z;
  Authorization : string;
  maxRPS : JsNumber
}.

(** How a computation stops without returning or throwing: the model ran
    out of fuel, met a [JOther] it cannot compute with, or the process
    exited. *)
Inductive Halt : Type :=
| OutOfFuel
| NotModelled
| Exited (exit_code : Z).

(** The result of a computation that may throw an [E]. *)
Inductive Res (E A : Type) : Type :=
| Ok (a : A)
| Throw (e : E)
| Stop (h : Halt).
Arguments Ok {E A} a.
Arguments Throw {E A} e.
Arguments Stop {E A} h.

(** [Array.prototype.slice(start, end)] on integer arguments. *)
Definition relative_index (len k : Z) : Z :=
  if k <? 0 then Z.max (len + k) 0 else Z.min k len.

Definition array_slice {A : Type} (l : list A) (start end_ : Z) : list A :=
  let len := Z.of_nat (List.length l) in
  let k := relative_index len start in
  let final := relative_index len end_ in
  firstn (Z.to_nat (final - k)) (skipn (Z.to_nat k) l).

(** [l.map(f)] for a callback that uses the element and its index. *)
Fixpoint array_mapi_from {A B : Type} (f : A -> Z -> B) (index : Z) (l : list A)
  : list B :=
  match l with
  | x :: r => f x index :: array_mapi_from f (index + 1) r
  | [] => []
  end%list.

Definition array_mapi {A B : Type} (f : A -> Z -> B) (l : list A) : list B :=
  array_mapi_from f 0 l.

(** ** The effect monad *)

Section Effects.
(** [R] is the source record of a script, [D] its destination record. *)
Context {R D : Type}.

(** The JSON value under the key [data] of a 2xx answer. [DPlain] is a
    boolean, a number, or an object without a [length] key; the
    characters of a [DString] are ASCII, so that its length is its number
    of bytes. *)
Inductive JsData : Type :=
| DUndefined
| DNull
| DArray (l : list R)
| DString (s : string)
| DPlain.

(** [response.data]: undefined or null, or a value whose [data]
    property reads as given. *)
Inductive Body : Type :=
| BodyNullish (n : Nullish)
| BodyWith (data : JsData).

Inductive ConsoleArg : Type :=
| CData (d : JsData)
| CRecords (l : list D).

Inductive Event : Type :=
| Log (level : Level) (msg : list Piece) (meta : Meta)
| Console (v : ConsoleArg) (label : string)
| HttpGet (c : Client) (url : string)
| HttpPost (c : Client) (url : string) (body : list D)
| Sleep (ms : Z)
| Exit (exit_code : Z).

(** The state: what the process did so far, how many POST requests it
    sent, how often it read the clock. *)
Record World : Type := mkWorld {
  trace : list Event;
  posts : nat;
  clock_reads : nat
}.

Definition start : World := mkWorld [] 0 0.

(** What the run does not decide: the engine's [Date.parse], the clock
    at its successive readings, the source's answer to the one GET, and
    the destination's answer to the k-th POST ([None]: a 2xx). *)
Record Runtime : Type := mkRuntime {
  Date_parse : string -> option Z;
  Date_now : nat -> Z;
  zoho_response : AxiosErr + Body;
  twenty_response : nat -> list D -> option AxiosErr
}.

Definition M (E A : Type) : Type := World -> Res E A * World.

Definition ret {E A : Type} (a : A) : M E A := fun w => (Ok a, w).

Definition bind {E A B : Type} (m : M E A) (k : A -> M E B) : M E B :=
  fun w =>
    match m w with
    | (Ok a, w') => k a w'
    | (Throw e, w') => (Throw e, w')
    | (Stop h, w') => (Stop h, w')
    end.

Definition throw {E A : Type} (e : E) : M E A := fun w => (Throw e, w).

Definition halt {E A : Type} (h : Halt) : M E A := fun w => (Stop h, w).

(** [try { body } catch (error) { handler }] *)
Definition try_catch {E E' A : Type} (body : M E A) (handler : E -> M E' A)
  : M E' A :=
  fun w =>
    match body w with
    | (Ok a, w') => (Ok a, w')
    | (Throw e, w') => handler e w'
    | (Stop h, w') => (Stop h, w')
    end.

Definition add_event (e : Event) (w : World) : World :=
  mkWorld (trace w ++ [e])%list (posts w) (clock_reads w).

Definition emit {E : Type} (e : Event) : M E unit :=
  fun w => (Ok tt, add_event e w).

Definition logger_info {E : Type} (msg : list Piece) : M E unit :=
  emit (Log LevelInfo msg NoMeta).

Definition logger_error {E : Type} (msg : list Piece) (meta : Meta) : M E unit :=
  emit (Log LevelError msg meta).

Definition console_log {E : Type} (v : ConsoleArg) (label : string) : M E unit :=
  emit (Console v label).

(** [await new Promise(resolve => setTimeout(resolve, ms))] *)
Definition sleep {E : Type} (ms : Z) : M E unit := emit (Sleep ms).

Definition process_exit {E A : Type} (exit_code : Z) : M E A :=
  fun w => (Stop (Exited exit_code), add_event (Exit exit_code) w).

(** [new Date()]: the next reading of the clock. *)
Definition new_Date_now {E : Type} (rt : Runtime) : M E Z :=
  fun w =>
    (Ok (Date_now rt (clock_reads w)),
     mkWorld (trace w) (posts w) (S (clock_reads w))).

(** [new Date(s)] for a string: the parser's time value, clipped. *)
Definition new_Date (rt : Runtime) (s : string) : option Z :=
  match Date_parse rt s with
  | Some t => TimeClip t
  | None => None
  end.

Definition axios_get (rt : Runtime) (c : Client) (url : string) : M Caught Body :=
  fun w =>
    let w' := add_event (HttpGet c url) w in
    match zoho_response rt with
    | inl e => (Throw (AxiosError e), w')
    | inr b => (Ok b, w')
    end.

Definition axios_post (rt : Runtime) (c : Client) (url : string) (body : list D)
  : M Caught unit :=
  fun w =>
    let w' := mkWorld (trace w ++ [HttpPost c url body])%list (S (posts w))
                      (clock_reads w) in
    match twenty_response rt (posts w) body with
    | Some e => (Throw (AxiosError e), w')
    | None => (Ok tt, w')
    end.

(** [response.data.data] *)
Definition response_data_data {E : Type} (wrap : string -> E) (b : Body)
  : M E JsData :=
  match b with
  | BodyWith d => ret d
  | BodyNullish Undefined =>
      throw (wrap "Cannot read properties of undefined (reading 'data')")
  | BodyNullish Null =>
      throw (wrap "Cannot read properties of null (reading 'data')")
  end.

(** What [x.length] reads. *)
Inductive Length : Type :=
| LengthUndefined
| LengthIs (n : Z).

Definition prop_length (d : JsData) : M Thrown Length :=
  match d with
  | DUndefined =>
      throw (TypeError "Cannot read properties of undefined (reading 'length')")
  | DNull =>
      throw (TypeError "Cannot read properties of null (reading 'length')")
  | DArray l => ret (LengthIs (Z.of_nat (List.length l)))
  | DString s => ret (LengthIs (Z.of_nat (String.length s)))
  | DPlain => ret LengthUndefined
  end.

Definition length_number (n : Length) : JsNumber :=
  match n with
  | LengthUndefined => JNaN
  | LengthIs n => JInt n
  end.

Definition length_piece (n : Length) : Piece :=
  match n with
  | LengthUndefined => Undef
  | LengthIs n => Num (JInt n)
  end.

(** [l.map(f)] for a callback with effects. *)
Fixpoint array_map_from {E A B : Type} (f : A -> Z -> M E B) (index : Z) (l : list A)
  : M E (list B) :=
  match l with
  | x :: r =>
      bind (f x index) (fun y =>
      bind (array_map_from f (index + 1) r) (fun ys =>
      ret (y :: ys)))
  | [] => ret []
  end%list.

Definition array_map {E A B : Type} (f : A -> Z -> M E B) (l : list A)
  : M E (list B) :=
  array_map_from f 0 l.

(** The bodies of the POST requests of a trace, in order. *)
Fixpoint posted (tr : list Event) : list (list D) :=
  match tr with
  | HttpPost _ _ body :: r => body :: posted r
  | _ :: r => posted r
  | [] => []
  end%list.

Definition is_http (e : Event) : bool :=
  match e with
  | HttpGet _ _ | HttpPost _ _ _ => true
  | _ => false
  end.

(** *** The parts both scripts carry, word for word *)

(** Every caught value is an object, hence truthy. *)
Definition truthy (error : Caught) : bool := true.

Definition error_response (error : Caught) : option AxiosResponse :=
  match error with
  | AxiosError e => err_response e
  | EngineTypeError _ => None
  end.

Definition error_message (error : Caught) : string :=
  match error with
  | AxiosError e => err_message e
  | EngineTypeError m => m
  end.

(** [error.response?.status || 500] *)
Definition statusCode_of (error : Caught) : Z :=
  match error_response error with
  | Some r => if response_status r =? 0 then 500 else response_status r
  | None => 500
  end.

(** [error.response?.data?.message || error.message] *)
Definition message_of (error : Caught) : string :=
  match error_response error with
  | Some r =>
      match response_data_message r with
      | Some m => if String.eqb m "" then error_message error else m
      | None => error_message error
      end
  | None => error_message error
  end.

Definition handleApiError {A : Type} (error : Caught) : M Thrown A :=
  if truthy error then
    let statusCode := statusCode_of error in
    let message := message_of error in
    bind (logger_error [Lit "API Error"] (ApiMeta statusCode message)) (fun _ =>
    throw (PlainError ("API Error: " ++ message)))
  else throw (Rethrown error).

End Effects.

Arguments JsData R : clear implicits.
Arguments Body R : clear implicits.
Arguments ConsoleArg R D : clear implicits.
Arguments Event R D : clear implicits.
Arguments World R D : clear implicits.
Arguments Runtime R D : clear implicits.
Arguments M R D E A : clear implicits.

Declare Scope js_scope.
Delimit Scope js_scope with js.
Notation "x <- m ;; k" := (bind m (fun x => k))
  (at level 61, m at next level, right associativity) : js_scope.
Notation "m ;;; k" := (bind m (fun _ => k))
  (at level 61, right associativity) : js_scope.

(** ** Environment validation *)

(** [process.env], at the keys of the schema. *)
Record Env : Type := mkEnv {
  env_ZOHO_BASE_URL : option string;
  env_ZOHO_API_KEY : option string;
  env_TWENTY_BASE_URL : option string;
  env_TWENTY_API_KEY : option string;
  env_BATCH_SIZE : option string;
  env_RATE_LIMIT_PER_SECOND : option string
}.

Record Config : Type := mkConfig {
  ZOHO_BASE_URL : string;
  ZOHO_API_KEY : string;
  TWENTY_BASE_URL : string;
  TWENTY_API_KEY : string;
  BATCH_SIZE : JsNumber;
  RATE_LIMIT_PER_SECOND : JsNumber
}.

(** [z.string().url()] at key [k]; [is_url] is the library's URL check. *)
Definition z_string_url (is_url : string -> bool) (k : string) (v : option string)
  : list ZodIssue + string :=
  match v with
  | None => inl [mkIssue k invalid_type]
  | Some s => if is_url s then inr s else inl [mkIssue k invalid_string]
  end%list.

(** [z.string().min(1)] *)
Definition z_string_min1 (k : string) (v : option string) : list ZodIssue + string :=
  match v with
  | None => inl [mkIssue k invalid_type]
  | Some s => if String.eqb s "" then inl [mkIssue k too_small] else inr s
  end%list.

(** [z.string().transform(Number).default(d)] *)
Definition z_number_default (d : string) (v : option string) : JsNumber :=
  match v with
  | None => Number d
  | Some s => Number s
  end.

Definition issues_of {A : Type} (r : list ZodIssue + A) : list ZodIssue :=
  match r with
  | inl i => i
  | inr _ => []
  end%list.

(** [EnvSchema.parse(process.env)]: the configuration, or the issues of
    every key that failed. *)
Definition EnvSchema_parse (is_url : string -> bool) (env : Env)
  : list ZodIssue + Config :=
  let zu := z_string_url is_url "ZOHO_BASE_URL" (env_ZOHO_BASE_URL env) in
  let zk := z_string_min1 "ZOHO_API_KEY" (env_ZOHO_API_KEY env) in
  let tu := z_string_url is_url "TWENTY_BASE_URL" (env_TWENTY_BASE_URL env) in
  let tk := z_string_min1 "TWENTY_API_KEY" (env_TWENTY_API_KEY env) in
  match zu, zk, tu, tk with
  | inr a, inr b, inr c, inr d =>
      inr (mkConfig a b c d
             (z_number_default "50" (env_BATCH_SIZE env))
             (z_number_default "5" (env_RATE_LIMIT_PER_SECOND env)))
  | _, _, _, _ => inl (issues_of zu ++ issues_of zk ++ issues_of tu ++ issues_of tk)%list
  end.

(** [Number(process.env.RATE_LIMIT_PER_SECOND) || 5] *)
Definition createAxiosInstance (env : Env) (baseURL apiKey : string) (isZoho : bool)
  : Client :=
  mkClient baseURL 10000
    (if isZoho then "Zoho-oauthtoken " ++ apiKey else "Bearer " ++ apiKey)
    (js_or (match env_RATE_LIMIT_PER_SECOND env with
            | Some s => Number s
            | None => JNaN
            end) (JInt 5)).

(** ** The task migration (src/taskMigration.ts) *)

Module TaskMigration.

Record TaskOwner : Type := mkTaskOwner { owner_id : string; owner_name : string }.

Record ZohoTask : Type := mkZohoTask {
  id : string;
  Subject : string;
  Status : string;
  Due_Date : string;
  Owner : option TaskOwner;
  Modified_Time : option string;
  Created_Time : option string
}.

Record TwentyTask : Type := mkTwentyTask {
  title : string;
  status : JsProp;
  dueAt : string;
  position : JsNumber
}.

Abbreviation Run := (M ZohoTask TwentyTask Thrown).
Abbreviation Rt := (Runtime ZohoTask TwentyTask).

Local Open Scope js_scope.

Definition fetchZohoTasks (rt : Rt) (axiosInstance : Client) : Run (JsData ZohoTask) :=
  try_catch
    (response <- axios_get rt axiosInstance "/crm/v2/Tasks" ;;
     response_data_data EngineTypeError response)
    handleApiError.

Definition createTwentyTasks (rt : Rt) (axiosInstance : Client) (tasks : list TwentyTask)
  : Run unit :=
  try_catch
    (console_log (CRecords tasks) "tasks" ;;;
     axios_post rt axiosInstance "/batch/tasks" tasks)
    handleApiError.

Definition statusMap : list (string * string) :=
  [ ("Open", "TODO"); ("In Progress", "IN_PROGESS"); ("Completed", "DONE") ]%list.

(** [statusMap[zohoStatus] || 'TODO'] *)
Definition mapStatus (zohoStatus : string) : JsProp :=
  match get_member statusMap zohoStatus with
  | Some v => if prop_truthy v then v else PString "TODO"
  | None => PString "TODO"
  end.

Definition validateDate (rt : Rt) (date : string) : Run string :=
  match new_Date rt date with
  | None => now <- new_Date_now rt ;; ret (toISOString now)
  | Some parsed => ret (toISOString parsed)
  end.

Definition mapToTwentyTask (rt : Rt) (zohoTask : ZohoTask) (position : JsNumber)
  : Run TwentyTask :=
  dueAt <- validateDate rt (Due_Date zohoTask) ;;
  ret (mkTwentyTask (Subject zohoTask) (mapStatus (Status zohoTask)) dueAt position).

Definition processBatch (rt : Rt) (tasks : JsData ZohoTask)
  (startIndex batchSize : JsNumber) (twentyAxios : Client) : Run unit :=
  match tasks with
  | DArray l =>
      match ToIntegerOrInfinity startIndex,
            ToIntegerOrInfinity (js_add startIndex batchSize) with
      | Some from, Some to =>
          let batch := array_slice l from to in
          twentyTasks <-
            array_map
              (fun task index =>
                 mapToTwentyTask rt task
                   (js_add (js_add startIndex (JInt index)) (JInt 1)))
              batch ;;
          createTwentyTasks rt twentyAxios twentyTasks ;;;
          logger_info
            [Lit "Processed batch ";
             Num (js_add (js_floor_div startIndex batchSize) (JInt 1))] ;;;
          sleep 1000
      | _, _ => halt NotModelled
      end
  | DString _ => throw (TypeError "batch.map is not a function")
  | DUndefined =>
      throw (TypeError "Cannot read properties of undefined (reading 'slice')")
  | DNull => throw (TypeError "Cannot read properties of null (reading 'slice')")
  | DPlain => throw (TypeError "tasks.slice is not a function")
  end.

(** [for (let i = ...; i < zohoTasks.length; i += config.BATCH_SIZE)]
    from the value [i] on; one unit of fuel per iteration. *)
Fixpoint batches_loop (fuel : nat) (rt : Rt) (zohoTasks : JsData ZohoTask)
  (i batchSize : JsNumber) (twentyAxios : Client) : Run unit :=
  n <- prop_length zohoTasks ;;
  match js_lt i (length_number n) with
  | None => halt NotModelled
  | Some false => ret tt
  | Some true =>
      match fuel with
      | O => halt OutOfFuel
      | S fuel' =>
          processBatch rt zohoTasks i batchSize twentyAxios ;;;
          batches_loop fuel' rt zohoTasks (js_add i batchSize) batchSize twentyAxios
      end
  end.

Definition migrateTasks (fuel : nat) (rt : Rt) (env : Env) (config : Config)
  : Run unit :=
  let zohoAxios :=
    createAxiosInstance env (ZOHO_BASE_URL config) (ZOHO_API_KEY config) true in
  let twentyAxios :=
    createAxiosInstance env (TWENTY_BASE_URL config) (TWENTY_API_KEY config) false in
  try_catch
    (logger_info [Lit "Starting task migration..."] ;;;
     zohoTasks <- fetchZohoTasks rt zohoAxios ;;
     n <- prop_length zohoTasks ;;
     logger_info [Lit "Fetched "; length_piece n; Lit " tasks from Zoho CRM"] ;;;
     batches_loop fuel rt zohoTasks (JInt 0) (BATCH_SIZE config) twentyAxios ;;;
     logger_info [Lit "Migration completed successfully"])
    (fun error =>
       logger_error [Lit "Migration failed"] (ErrorMeta error) ;;;
       throw error).

Definition main (fuel : nat) (is_url : string -> bool) (rt : Rt) (env : Env)
  : Run unit :=
  try_catch
    (config <-
       match EnvSchema_parse is_url env with
       | inr config => ret config
       | inl issues => throw (ZodError issues)
       end ;;
     migrateTasks fuel rt env config)
    (fun error =>
       match error with
       | ZodError issues =>
           logger_error [Lit "Environment validation failed"] (IssuesMeta issues)
       | _ => logger_error [Lit "Unexpected error"] (ErrorMeta error)
       end ;;;
       process_exit 1).

End TaskMigration.

(** ** The contact migration *)

Module ContactMigration.

Record Person : Type := mkPerson {
  person_name : string;
  person_id : string;
  person_email : string
}.

Record ZohoContact : Type := mkZohoContact {
  id : string;
  First_Name : string;
  Last_Name : string;
  Email : string;
  Phone : string;
  Mobile : string;
  Owner : option Person;
  Created_By : Person;
  Mailing_City : string;
  Title : string;
  Record_Image : string;
  Mailing_Country : string
}.

Record Name : Type := mkName { firstName : string; lastName : string }.

Record Emails : Type := mkEmails {
  primaryEmail : string;
  additionalEmails : option (list string)
}.

Record Link : Type := mkLink {
  primaryLinkLabel : option string;
  primaryLinkUrl : option string;
  secondaryLinks : option (list (string * string))
}.

Record Phones : Type := mkPhones {
  primaryPhoneNumber : string;
  primaryPhoneCountryCode : option string;
  additionalPhones : option (list string)
}.

Record CreatedBy : Type := mkCreatedBy { source : string }.

Record TwentyContact : Type := mkTwentyContact {
  name : Name;
  emails : Emails;
  linkedinLink : option Link;
  xLink : option Link;
  jobTitle : option string;
  phones : Phones;
  city : option string;
  avatarUrl : option string;
  position : JsNumber;
  createdBy : CreatedBy;
  companyId : option string
}.

Abbreviation Run := (M ZohoContact TwentyContact Thrown).
Abbreviation Rt := (Runtime ZohoContact TwentyContact).

Local Open Scope js_scope.

Definition fetchZohoContacts (rt : Rt) (axiosInstance : Client)
  : Run (JsData ZohoContact) :=
  try_catch
    (response <- axios_get rt axiosInstance "/crm/v2/Contacts" ;;
     data <- response_data_data EngineTypeError response ;;
     console_log (CData data) "response.data.data" ;;;
     ret data)
    handleApiError.

Definition createTwentyContacts (rt : Rt) (axiosInstance : Client)
  (contacts : list TwentyContact) : Run unit :=
  try_catch (axios_post rt axiosInstance "/batch/people" contacts) handleApiError.

Definition mapToTwentyContact (zohoContact : ZohoContact) (index : Z) : TwentyContact :=
  mkTwentyContact
    (mkName (First_Name zohoContact) (Last_Name zohoContact))
    (mkEmails (Email zohoContact) (Some []%list))
    (Some (mkLink None None None))
    None
    (Some (Title zohoContact))
    (mkPhones (Phone zohoContact) (Some (Mailing_Country zohoContact))
              (Some [Mobile zohoContact]%list))
    (Some (Mailing_City zohoContact))
    None
    (JInt (index + 1))
    (mkCreatedBy "EMAIL")
    None.

Definition processBatch (rt : Rt) (contacts : JsData ZohoContact)
  (startIndex batchSize : JsNumber) (twentyAxios : Client) : Run unit :=
  match contacts with
  | DArray l =>
      match ToIntegerOrInfinity startIndex,
            ToIntegerOrInfinity (js_add startIndex batchSize) with
      | Some from, Some to =>
          let batch := array_slice l from to in
          let twentyContacts := array_mapi mapToTwentyContact batch in
          createTwentyContacts rt twentyAxios twentyContacts ;;;
          logger_info
            [Lit "Processed batch ";
             Num (js_add (js_floor_div startIndex batchSize) (JInt 1))] ;;;
          sleep 1000
      | _, _ => halt NotModelled
      end
  | DString _ => throw (TypeError "batch.map is not a function")
  | DUndefined =>
      throw (TypeError "Cannot read properties of undefined (reading 'slice')")
  | DNull => throw (TypeError "Cannot read properties of null (reading 'slice')")
  | DPlain => throw (TypeError "contacts.slice is not a function")
  end.

Fixpoint batches_loop (fuel : nat) (rt : Rt) (zohoContacts : JsData ZohoContact)
  (i batchSize : JsNumber) (twentyAxios : Client) : Run unit :=
  n <- prop_length zohoContacts ;;
  match js_lt i (length_number n) with
  | None => halt NotModelled
  | Some false => ret tt
  | Some true =>
      match fuel with
      | O => halt OutOfFuel
      | S fuel' =>
          processBatch rt zohoContacts i batchSize twentyAxios ;;;
          batches_loop fuel' rt zohoContacts (js_add i batchSize) batchSize twentyAxios
      end
  end.

Definition migrateContacts (fuel : nat) (rt : Rt) (env : Env) (config : Config)
  : Run unit :=
  let zohoAxios :=
    createAxiosInstance env (ZOHO_BASE_URL config) (ZOHO_API_KEY config) true in
  let twentyAxios :=
    createAxiosInstance env (TWENTY_BASE_URL config) (TWENTY_API_KEY config) false in
  try_catch
    (logger_info [Lit "Starting contact migration..."] ;;;
     zohoContacts <- fetchZohoContacts rt zohoAxios ;;
     n <- prop_length zohoContacts ;;
     logger_info [Lit "Fetched "; length_piece n; Lit " contacts from Zoho CRM"] ;;;
     batches_loop fuel rt zohoContacts (JInt 0) (BATCH_SIZE config) twentyAxios ;;;
     logger_info [Lit "Migration completed successfully"])
    (fun error =>
       logger_error [Lit "Migration failed"] (ErrorMeta error) ;;;
       throw error).

Definition main (fuel : nat) (is_url : string -> bool) (rt : Rt) (env : Env)
  : Run unit :=
  try_catch
    (config <-
       match EnvSchema_parse is_url env with
       | inr config => ret config
       | inl issues => throw (ZodError issues)
       end ;;
     migrateContacts fuel rt env config)
    (fun error =>
       match error with
       | ZodError issues =>
           logger_error [Lit "Environment validation failed"] (IssuesMeta issues)
       | _ => logger_error [Lit "Unexpected error"] (ErrorMeta error)
       end ;;;
       process_exit 1).

End ContactMigration.


(** * Vocabulary of the statements *)

(** The number of batches N records give at batch size b: ceil(N/b). *)
Definition batch_count (n b : Z) : nat := Z.to_nat ((n + b - 1) / b).

(** The slices [processBatch] takes at the loop's successive indices
    i, i + b, i + 2b, ... *)
Fixpoint slices {A : Type} (n : nat) (l : list A) (b i : Z) : list (list A) :=
  match n with
  | O => []
  | S n' => array_slice l i (i + b) :: slices n' l b (i + b)
  end%list.

Definition source_batches {A : Type} (l : list A) (b : Z) : list (list A) :=
  slices (batch_count (Z.of_nat (List.length l)) b) l b 0.

Section TaskVocabulary.
Import TaskMigration.
Variable rt : Rt.
Variable cl : Client.
Variable l : list ZohoTask.
Variable b : Z.

(** [startIndex + index + 1] *)
Definition position_at (startIndex : JsNumber) (index : Z) : JsNumber :=
  js_add (js_add startIndex (JInt index)) (JInt 1).

(** The callback [processBatch] hands to [batch.map]. *)
Definition callback (startIndex : JsNumber) (task : ZohoTask) (index : Z)
  : Run TwentyTask :=
  mapToTwentyTask rt task (position_at startIndex index).

Definition set_reads (w : World ZohoTask TwentyTask) (n : nat)
  : World ZohoTask TwentyTask :=
  mkWorld (trace w) (posts w) n.

(** [d] is what the mapping makes of [t], the position and the clock
    apart. *)
Definition mapped (t : ZohoTask) (d : TwentyTask) : Prop :=
  title d = Subject t
  /\ status d = mapStatus (Status t)
  /\ forall tv, new_Date rt (Due_Date t) = Some tv -> dueAt d = toISOString tv.

(** [body] is what [batch.map] returns for the slice at index [i]. *)
Definition carried (i : Z) (body : list TwentyTask) : Prop :=
  exists w n,
    array_map (callback (JInt i)) (array_slice l i (i + b)) w = (Ok body, set_reads w n).

(** What a batch written with success leaves in the trace. *)
Definition batch_events (i : Z) (body : list TwentyTask)
  : list (Event ZohoTask TwentyTask) :=
  [ Console (CRecords body) "tasks";
    HttpPost cl "/batch/tasks" body;
    Log LevelInfo
      [Lit "Processed batch "; Num (js_add (js_floor_div (JInt i) (JInt b)) (JInt 1))]
      NoMeta;
    Sleep 1000 ]%list.

(** What a batch whose write is rejected with [e] leaves in the trace. *)
Definition failure_events (body : list TwentyTask) (e : AxiosErr)
  : list (Event ZohoTask TwentyTask) :=
  [ Console (CRecords body) "tasks";
    HttpPost cl "/batch/tasks" body;
    Log LevelError [Lit "API Error"]
      (ApiMeta (statusCode_of (AxiosError e)) (message_of (AxiosError e))) ]%list.

(** The error [handleApiError] throws for the rejection [e]. *)
Definition api_error (e : AxiosErr) : Thrown :=
  PlainError ("API Error: " ++ message_of (AxiosError e)).

Inductive Outcome : Type :=
| Completed
| Failed (e : AxiosErr).

Definition result_of (o : Outcome) : Res Thrown unit :=
  match o with
  | Completed => Ok tt
  | Failed e => Throw (api_error e)
  end.

(** The course of the batch loop from index [i], when [p] POST requests
    were sent before: the bodies written, the events, and how it ends. *)
Inductive Schedule
  : Z -> nat -> list (list TwentyTask) -> list (Event ZohoTask TwentyTask)
    -> Outcome -> Prop :=
| Schedule_done i p :
    Z.of_nat (List.length l) <= i -> Schedule i p [] [] Completed
| Schedule_write i p body bodies evs out :
    i < Z.of_nat (List.length l) -> carried i body ->
    twenty_response rt p body = None ->
    Schedule (i + b) (S p) bodies evs out ->
    Schedule i p (body :: bodies) (batch_events i body ++ evs)%list out
| Schedule_fail i p body e :
    i < Z.of_nat (List.length l) -> carried i body ->
    twenty_response rt p body = Some e ->
    Schedule i p [body] (failure_events body e) (Failed e).

End TaskVocabulary.

Section TaskMainVocabulary.
Import TaskMigration.
Variable env : Env.
Variable config : Config.

Definition zohoAxios : Client :=
  createAxiosInstance env (ZOHO_BASE_URL config) (ZOHO_API_KEY config) true.

Definition twentyAxios : Client :=
  createAxiosInstance env (TWENTY_BASE_URL config) (TWENTY_API_KEY config) false.

(** The trace of [main] up to the first batch, for [n] fetched tasks. *)
Definition prologue (n : nat) : list (Event ZohoTask TwentyTask) :=
  [ Log LevelInfo [Lit "Starting task migration..."] NoMeta;
    HttpGet zohoAxios "/crm/v2/Tasks";
    Log LevelInfo
      [Lit "Fetched "; Num (JInt (Z.of_nat n)); Lit " tasks from Zoho CRM"] NoMeta ]%list.

(** The trace of [main] after the last batch. *)
Definition epilogue (out : Outcome) : list (Event ZohoTask TwentyTask) :=
  match out with
  | Completed => [Log LevelInfo [Lit "Migration completed successfully"] NoMeta]
  | Failed e =>
      [ Log LevelError [Lit "Migration failed"] (ErrorMeta (api_error e));
        Log LevelError [Lit "Unexpected error"] (ErrorMeta (api_error e));
        Exit 1 ]
  end%list.

Definition main_result (out : Outcome) : Res Thrown unit :=
  match out with
  | Completed => Ok tt
  | Failed _ => Stop (Exited 1)
  end.

End TaskMainVocabulary.



(** The log entry [handleApiError] writes for the rejection [e]. *)
Definition api_error_log {R D : Type} (e : AxiosErr) : Event R D :=
  Log LevelError [Lit "API Error"]
    (ApiMeta (statusCode_of (AxiosError e)) (message_of (AxiosError e))).

(** ** Reading a trace *)

(** The number of inter-batch pauses of a trace. *)
Fixpoint pauses {R D : Type} (tr : list (Event R D)) : nat :=
  match tr with
  | Sleep _ :: r => S (pauses r)
  | _ :: r => pauses r
  | [] => O
  end%list.

(** The numbers of the "Processed batch" entries of a trace, in order. *)
Fixpoint processed_batches {R D : Type} (tr : list (Event R D)) : list JsNumber :=
  match tr with
  | Log LevelInfo [Lit s; Num n] NoMeta :: r =>
      if String.eqb s "Processed batch " then n :: processed_batches r
      else processed_batches r
  | _ :: r => processed_batches r
  | [] => []
  end%list.

(** The issue, if any, that names the key [k]. *)
Definition names_key (k : string) (issues : list ZodIssue) : bool :=
  existsb (fun i => String.eqb (path i) k) issues.

Section ContactVocabulary.
Import ContactMigration.
Variable rt : Rt.
Variable cl : Client.
Variable l : list ZohoContact.
Variable b : Z.

(** What [processBatch] of the contact script writes for the slice at
    index [i]. *)
Definition contact_body (i : Z) : list TwentyContact :=
  array_mapi mapToTwentyContact (array_slice l i (i + b)).

Definition contact_batch_events (i : Z) : list (Event ZohoContact TwentyContact) :=
  [ HttpPost cl "/batch/people" (contact_body i);
    Log LevelInfo
      [Lit "Processed batch "; Num (js_add (js_floor_div (JInt i) (JInt b)) (JInt 1))]
      NoMeta;
    Sleep 1000 ]%list.

Definition contact_failure_events (i : Z) (e : AxiosErr)
  : list (Event ZohoContact TwentyContact) :=
  [ HttpPost cl "/batch/people" (contact_body i); api_error_log e ]%list.

(** The course of the contact script's loop from index [i], when [p]
    POST requests were sent before. *)
Inductive ContactSchedule
  : Z -> nat -> list (list TwentyContact) -> list (Event ZohoContact TwentyContact)
    -> Outcome -> Prop :=
| ContactSchedule_done i p :
    Z.of_nat (List.length l) <= i -> ContactSchedule i p [] [] Completed
| ContactSchedule_write i p bodies evs out :
    i < Z.of_nat (List.length l) ->
    twenty_response rt p (contact_body i) = None ->
    ContactSchedule (i + b) (S p) bodies evs out ->
    ContactSchedule i p (contact_body i :: bodies)
      (contact_batch_events i ++ evs)%list out
| ContactSchedule_fail i p e :
    i < Z.of_nat (List.length l) ->
    twenty_response rt p (contact_body i) = Some e ->
    ContactSchedule i p [contact_body i] (contact_failure_events i e) (Failed e).

End ContactVocabulary.

Section ContactMainVocabulary.
Import ContactMigration.
Variable env : Env.
Variable config : Config.

Definition contact_prologue (l : list ZohoContact)
  : list (Event ZohoContact TwentyContact) :=
  [ Log LevelInfo [Lit "Starting contact migration..."] NoMeta;
    HttpGet (zohoAxios env config) "/crm/v2/Contacts";
    Console (CData (DArray l)) "response.data.data";
    Log LevelInfo
      [Lit "Fetched "; Num (JInt (Z.of_nat (List.length l)));
       Lit " contacts from Zoho CRM"] NoMeta ]%list.

Definition contact_epilogue (out : Outcome)
  : list (Event ZohoContact TwentyContact) :=
  match out with
  | Completed => [Log LevelInfo [Lit "Migration completed successfully"] NoMeta]
  | Failed e =>
      [ Log LevelError [Lit "Migration failed"] (ErrorMeta (api_error e));
        Log LevelError [Lit "Unexpected error"] (ErrorMeta (api_error e));
        Exit 1 ]
  end%list.

End ContactMainVocabulary.

(** ** Inputs of the examples *)

Fixpoint all_lower_or_dot (s : string) : bool :=
  match s with
  | String c r =>
      let n := nat_of_ascii c in
      ((Nat.leb 97 n && Nat.leb n 122) || Nat.eqb n 46)%bool && all_lower_or_dot r
  | EmptyString => true
  end.

Definition is_lower (c : ascii) : bool :=
  let n := nat_of_ascii c in (Nat.leb 97 n && Nat.leb n 122)%bool.

Fixpoint last_is_lower (s : string) : bool :=
  match s with
  | String c EmptyString => is_lower c
  | String _ r => last_is_lower r
  | EmptyString => false
  end.

(** A URL check for the examples: it accepts https://host where the host
    is made of lowercase letters and dots and starts and ends with a
    letter; such a string is an absolute URL. *)
Definition https_host_url (s : string) : bool :=
  match s with
  | String "h" (String "t" (String "t" (String "p" (String "s" (String ":"
      (String "/" (String "/" (String c r as host)))))))) =>
      (is_lower c && all_lower_or_dot host && last_is_lower host)%bool
  | _ => false
  end.

Definition example_env (batch_size : option string) : Env :=
  mkEnv (Some "https://www.zohoapis.com") (Some "zoho-key")
        (Some "https://api.twenty.com") (Some "twenty-key") batch_size None.

Definition example_clock (k : nat) : Z := 1705314600000 + 1000 * Z.of_nat k.

Definition example_task (subject status due : string) : TaskMigration.ZohoTask :=
  TaskMigration.mkZohoTask "4150868000000225013" subject status due None None None.

Definition example_tasks : list TaskMigration.ZohoTask :=
  [ example_task "Call" "Open" "2024-03-15";
    example_task "Demo" "In Progress" "TBD";
    example_task "Quote" "Completed" "2024-01-15T10:30:00.123Z";
    example_task "Visit" "Deferred" "2024-02-29";
    example_task "Mail" "Open" "2024-04-01" ]%list.

(** A run-time whose destination rejects the POST number [failing], when
    given, with a 503. *)
Definition example_rt (source : AxiosErr + Body TaskMigration.ZohoTask)
  (failing : option nat) : TaskMigration.Rt :=
  mkRuntime iso_parse example_clock source
    (fun k _ =>
       match failing with
       | Some q =>
           if Nat.eqb k q
           then Some (mkAxiosErr "Request failed with status code 503"
                        (Some (mkResponse 503 (Some "Service Unavailable"))))
           else None
       | None => None
       end).

Definition example_person : ContactMigration.Person :=
  ContactMigration.mkPerson "Ada" "4150868000000225001" "ada@example.com".

Definition example_contact (first country : string) : ContactMigration.ZohoContact :=
  ContactMigration.mkZohoContact "4150868000000225020" first "Byron"
    "contact@example.com" "555-0100" "555-0101" None example_person
    "London" "Engineer" "" country.

Definition example_contacts_rt (source : AxiosErr + Body ContactMigration.ZohoContact)
  : ContactMigration.Rt :=
  mkRuntime iso_parse example_clock source (fun _ _ => None).

Definition example_contacts : list ContactMigration.ZohoContact :=
  [ example_contact "Ada" "GB"; example_contact "Grace" "US";
    example_contact "Alan" "GB"; example_contact "Edsger" "NL";
    example_contact "Barbara" "US" ]%list.

(** A run-time of the contact script whose destination rejects the POST
    number [failing], when given, with a 503. *)
Definition example_contacts_rt_failing
  (source : AxiosErr + Body ContactMigration.ZohoContact) (failing : option nat)
  : ContactMigration.Rt :=
  mkRuntime iso_parse example_clock source
    (fun k _ =>
       match failing with
       | Some q =>
           if Nat.eqb k q
           then Some (mkAxiosErr "Request failed with status code 503"
                        (Some (mkResponse 503 (Some "Service Unavailable"))))
           else None
       | None => None
       end).

Definition example_config (batch_size : JsNumber) : Config :=
  mkConfig "https://www.zohoapis.com" "zoho-key"
           "https://api.twenty.com" "twenty-key" batch_size (JInt 5).

(** * Properties *)

(** ** Dates: what is written can be read back *)

Lemma YearFromDay_spec d :
  DayFromYear (YearFromDay d) <= d < DayFromYear (YearFromDay d + 1).
Proof.
  unfold YearFromDay.
  set (y0 := 1970 + (400 * d) / 146097).
  assert (H : DayFromYear (y0 - 1) <= d < DayFromYear (y0 + 2)).
  { subst y0. unfold DayFromYear. Z.div_mod_to_equations. lia. }
  destruct (DayFromYear (y0 + 1) <=? d) eqn:E1.
  - apply Z.leb_le in E1. replace (y0 + 1 + 1) with (y0 + 2) by lia. lia.
  - apply Z.leb_gt in E1. destruct (DayFromYear y0 <=? d) eqn:E2.
    + apply Z.leb_le in E2. lia.
    + apply Z.leb_gt in E2. replace (y0 - 1 + 1) with y0 by lia. lia.
Qed.

Lemma DaysInYear_step y :
  DayFromYear (y + 1) - DayFromYear y = if InLeapYear y then 366 else 365.
Proof.
  unfold DayFromYear, InLeapYear.
  destruct (y mod 4 =? 0) eqn:E4; destruct (y mod 100 =? 0) eqn:E100;
    destruct (y mod 400 =? 0) eqn:E400; cbn [andb orb negb];
    rewrite ?Z.eqb_eq, ?Z.eqb_neq in *; Z.div_mod_to_equations; lia.
Qed.

Lemma year_of_valid_day d :
  -100000000 <= d <= 100000000 -> -271822 <= YearFromDay d <= 275760.
Proof.
  intros H. pose proof (YearFromDay_spec d) as S.
  unfold DayFromYear in S. Z.div_mod_to_equations. lia.
Qed.

Lemma month_of_day_in_year (leap : bool) diy :
  0 <= diy < (if leap then 366 else 365) ->
  let m := MonthFromDayInYear leap diy in
  1 <= m <= 12 /\ 1 <= diy - cumDays leap m + 1 <= DaysInMonth leap m.
Proof.
  intros H. unfold MonthFromDayInYear.
  destruct leap;
    repeat match goal with
           | |- context [?a <? ?b] =>
               let E := fresh "E" in
               destruct (a <? b) eqn:E;
               [apply Z.ltb_lt in E | apply Z.ltb_ge in E]
           end; cbn; lia.
Qed.

Lemma DaysInMonth_le_31 leap m : DaysInMonth leap m <= 31.
Proof.
  unfold DaysInMonth.
  destruct leap, m as [|p|p]; try lia;
    do 5 (try (destruct p as [p|p|]; try lia)).
Qed.

Ltac digit_cases d H :=
  let C := fresh "C" in
  assert (C : d = 0 \/ d = 1 \/ d = 2 \/ d = 3 \/ d = 4 \/ d = 5 \/ d = 6
              \/ d = 7 \/ d = 8 \/ d = 9) by lia;
  clear H;
  repeat (destruct C as [C | C]; [subst d |]); [.. | subst d].

Lemma digit_val_char d : 0 <= d <= 9 -> digit_val (digit_char d) = Some d.
Proof. intros H. digit_cases d H; reflexivity. Qed.

Lemma digit_char_not_sign d :
  0 <= d <= 9 -> digit_char d <> "+"%char /\ digit_char d <> "-"%char.
Proof. intros H. digit_cases d H; split; discriminate. Qed.

Lemma take_digits_pad k : forall n acc rest,
  take_digits k acc (pad k n ++ rest)
  = Some (acc * 10 ^ Z.of_nat k + n mod 10 ^ Z.of_nat k, rest).
Proof.
  induction k as [|k IH]; intros n acc rest.
  - cbn. rewrite Z.mod_1_r. f_equal. f_equal. lia.
  - cbn [pad take_digits append].
    rewrite digit_val_char
      by (pose proof (Z.mod_pos_bound (n / 10 ^ Z.of_nat k) 10); lia).
    rewrite IH. f_equal. f_equal.
    rewrite Nat2Z.inj_succ, Z.pow_succ_r by lia.
    assert (P : 0 < 10 ^ Z.of_nat k) by (apply Z.pow_pos_nonneg; lia).
    rewrite (Z.mul_comm 10 (10 ^ Z.of_nat k)).
    rewrite (Z.rem_mul_r n (10 ^ Z.of_nat k) 10) by lia.
    ring.
Qed.

Lemma take_digits_pad0 k n rest :
  0 <= n < 10 ^ Z.of_nat k ->
  take_digits k 0 (pad k n ++ rest) = Some (n, rest).
Proof. intros H. rewrite take_digits_pad, Z.mod_small by exact H. reflexivity. Qed.

Lemma expect_lit c rest : expect c (String c rest) = Some rest.
Proof. cbn. rewrite Ascii.eqb_refl. reflexivity. Qed.

Lemma parse_year_string y rest :
  -999999 <= y <= 999999 ->
  parse_year (year_string y ++ rest) = Some (y, rest).
Proof.
  intros Hy. unfold year_string.
  destruct ((0 <=? y) && (y <=? 9999)) eqn:E.
  - apply andb_true_iff in E as [E1 E2]. apply Z.leb_le in E1, E2.
    pose proof (take_digits_pad0 4 y rest) as T.
    change (pad 4 y)
      with (String (digit_char ((y / 10 ^ Z.of_nat 3) mod 10)) (pad 3 y)) in *.
    cbn [append] in *. unfold parse_year.
    destruct (digit_char_not_sign ((y / 10 ^ Z.of_nat 3) mod 10)) as [N1 N2].
    { pose proof (Z.mod_pos_bound (y / 10 ^ Z.of_nat 3) 10). lia. }
    apply Ascii.eqb_neq in N1, N2. rewrite N1, N2. apply T. cbn. lia.
  - assert (R : y < 0 \/ 9999 < y).
    { apply andb_false_iff in E as [E | E]; apply Z.leb_gt in E; lia. }
    destruct (y <? 0) eqn:S; [apply Z.ltb_lt in S | apply Z.ltb_ge in S].
    + cbn [append parse_year]. cbn [Ascii.eqb Bool.eqb].
      rewrite take_digits_pad0 by (cbn; lia).
      destruct (Z.abs y =? 0) eqn:Z0; [apply Z.eqb_eq in Z0; lia |].
      f_equal. f_equal. lia.
    + cbn [append parse_year]. cbn [Ascii.eqb Bool.eqb].
      rewrite take_digits_pad0 by (cbn; lia).
      f_equal. f_equal. lia.
Qed.

Lemma TimeClip_valid t : valid_time t -> TimeClip t = Some t.
Proof.
  unfold valid_time, TimeClip. intros [H1 H2].
  apply Z.leb_le in H1, H2. rewrite H1, H2. reflexivity.
Qed.

Lemma TimeClip_Some t t' : TimeClip t = Some t' -> t' = t /\ valid_time t.
Proof.
  unfold TimeClip, valid_time.
  destruct ((- maxTime <=? t) && (t <=? maxTime)) eqn:E; [|discriminate].
  intros [= <-]. apply andb_true_iff in E as [E1 E2]. apply Z.leb_le in E1, E2. lia.
Qed.

(** Reading back what [toISOString] writes gives the same instant. *)
Lemma iso_roundtrip t : valid_time t -> iso_parse (toISOString t) = Some t.
Proof.
  intros V. pose proof V as V'. unfold valid_time, maxTime in V. unfold toISOString.
  set (day := t / msPerDay). set (ms := t mod msPerDay).
  assert (Hms : 0 <= ms < 86400000) by (apply Z.mod_pos_bound; reflexivity).
  assert (Ht : t = day * msPerDay + ms).
  { subst day ms. rewrite Z.mul_comm. apply Z.div_mod. discriminate. }
  assert (Hday : -100000000 <= day <= 100000000).
  { unfold msPerDay in Ht. lia. }
  pose proof (YearFromDay_spec day) as Hy.
  pose proof (year_of_valid_day day Hday) as Hyb.
  set (y := YearFromDay day) in *.
  pose proof (DaysInYear_step y) as Hstep.
  set (leap := InLeapYear y) in *.
  set (diy := day - DayFromYear y).
  assert (Hdiy : 0 <= diy < (if leap then 366 else 365)).
  { subst diy. destruct leap; lia. }
  pose proof (month_of_day_in_year leap diy Hdiy) as [Hm Hd].
  set (m := MonthFromDayInYear leap diy) in *.
  set (d := diy - cumDays leap m + 1) in *.
  pose proof (DaysInMonth_le_31 leap m) as Hdm.
  unfold iso_parse.
  rewrite parse_year_string by lia. cbn [append].
  rewrite expect_lit. rewrite take_digits_pad0 by (cbn; lia).
  rewrite expect_lit. rewrite take_digits_pad0 by (cbn; lia).
  fold leap.
  replace ((1 <=? m) && (m <=? 12) && (1 <=? d) && (d <=? DaysInMonth leap m)) with true
    by (symmetry; rewrite !andb_true_iff, !Z.leb_le; lia).
  cbn [Ascii.eqb Bool.eqb].
  unfold parse_time.
  rewrite take_digits_pad0 by (cbn; Z.div_mod_to_equations; lia).
  rewrite expect_lit. rewrite take_digits_pad0 by (cbn; Z.div_mod_to_equations; lia).
  rewrite expect_lit. rewrite take_digits_pad0 by (cbn; Z.div_mod_to_equations; lia).
  rewrite expect_lit. rewrite take_digits_pad0 by (cbn; Z.div_mod_to_equations; lia).
  rewrite expect_lit.
  replace ((ms / 3600000 <=? 23) && ((ms / 60000) mod 60 <=? 59)
           && ((ms / 1000) mod 60 <=? 59))
    with true
    by (symmetry; rewrite !andb_true_iff, !Z.leb_le; Z.div_mod_to_equations; lia).
  assert (Hsum : ms / 3600000 * 3600000 + (ms / 60000) mod 60 * 60000
                 + (ms / 1000) mod 60 * 1000 + ms mod 1000 = ms).
  { Z.div_mod_to_equations. lia. }
  rewrite Hsum.
  assert (Hmk : MakeDay y m d = day).
  { unfold MakeDay. fold leap. subst d diy. lia. }
  rewrite Hmk, <- Ht.
  apply TimeClip_valid. exact V'.
Qed.

(** ** Slicing a sequence into batches *)

Section Slices.
Context {A : Type}.
Variable l : list A.
Variable b : Z.
Hypothesis b_pos : 1 <= b.
Local Abbreviation N := (Z.of_nat (List.length l)) (only parsing).

Lemma array_slice_window i :
  0 <= i < N ->
  array_slice l i (i + b)
  = firstn (Z.to_nat (Z.min b (N - i))) (skipn (Z.to_nat i) l).
Proof.
  intros Hi. unfold array_slice, relative_index.
  destruct (i <? 0) eqn:E1; [apply Z.ltb_lt in E1; lia|].
  destruct (i + b <? 0) eqn:E2; [apply Z.ltb_lt in E2; lia|].
  f_equal; [|f_equal]; lia.
Qed.

Lemma array_slice_length i :
  0 <= i < N -> List.length (array_slice l i (i + b)) = Z.to_nat (Z.min b (N - i)).
Proof.
  intros Hi. rewrite array_slice_window by exact Hi.
  rewrite length_firstn, length_skipn. lia.
Qed.


Lemma batch_count_step i :
  i < N -> batch_count (N - i) b = S (batch_count (N - (i + b)) b).
Proof.
  intros Hi. unfold batch_count.
  replace (N - i + b - 1) with (1 * b + (N - (i + b) + b - 1)) by ring.
  rewrite Z.div_add_l by lia.
  assert (0 <= (N - (i + b) + b - 1) / b) by (apply Z.div_pos; lia).
  lia.
Qed.

Lemma batch_count_done i : N <= i -> batch_count (N - i) b = O.
Proof.
  intros Hi. unfold batch_count.
  assert ((N - i + b - 1) / b <= 0).
  { apply Z.lt_succ_r. apply Z.div_lt_upper_bound; lia. }
  lia.
Qed.

Lemma slices_length : forall n i, List.length (slices n l b i) = n.
Proof. induction n as [|n IH]; intros i; cbn; [reflexivity | now rewrite IH]. Qed.




End Slices.

Lemma map_seq_offset {B : Type} (f : nat -> B) : forall n k,
  map f (seq k n) = map (fun j => f (k + j)%nat) (seq 0 n).
Proof.
  induction n as [|n IH]; intros k; [reflexivity|].
  cbn [seq map]. rewrite Nat.add_0_r. f_equal.
  rewrite (IH (S k)), <- seq_shift, map_map.
  apply map_ext. intros j. f_equal. lia.
Qed.

Lemma posted_app {R D : Type} (a c : list (Event R D)) :
  posted (a ++ c) = (posted a ++ posted c)%list.
Proof.
  induction a as [|e a IH]; [reflexivity|].
  destruct e; cbn; rewrite IH; reflexivity.
Qed.

(** ** The task script, step by step *)

Section TaskRun.
Import TaskMigration.
Variable rt : Rt.
Variable cl : Client.
Variable l : list ZohoTask.
Variable b : Z.
Local Abbreviation N := (Z.of_nat (List.length l)) (only parsing).

Lemma validateDate_run date w :
  exists n,
    validateDate rt date w
    = (Ok (match new_Date rt date with
           | Some t => toISOString t
           | None => toISOString (Date_now rt (clock_reads w))
           end), set_reads w n).
Proof.
  unfold validateDate. destruct (new_Date rt date).
  - exists (clock_reads w). destruct w; reflexivity.
  - exists (S (clock_reads w)). reflexivity.
Qed.

Lemma mapToTwentyTask_run task p w :
  exists n dueAt,
    mapToTwentyTask rt task p w
    = (Ok (mkTwentyTask (Subject task) (mapStatus (Status task)) dueAt p), set_reads w n)
    /\ forall tv, new_Date rt (Due_Date task) = Some tv -> dueAt = toISOString tv.
Proof.
  unfold mapToTwentyTask, bind.
  destruct (validateDate_run (Due_Date task) w) as [n ->].
  eexists _, _. split; [reflexivity|]. intros tv ->. reflexivity.
Qed.

Lemma array_map_from_run startIndex : forall batch index w,
  exists body n,
    array_map_from (callback rt startIndex) index batch w = (Ok body, set_reads w n)
    /\ Forall2 (mapped rt) batch body
    /\ map position body
       = map (fun j => position_at startIndex (index + Z.of_nat j))
             (seq 0 (List.length batch)).
Proof.
  induction batch as [|t batch IH]; intros index w.
  - exists [], (clock_reads w). destruct w; cbn. auto.
  - cbn [array_map_from]. unfold bind at 1. unfold callback at 1.
    destruct (mapToTwentyTask_run t (position_at startIndex index) w)
      as (n & d & -> & Hd).
    unfold bind at 1.
    destruct (IH (index + 1) (set_reads w n)) as (body & n' & -> & Hm & Hp).
    exists (mkTwentyTask (Subject t) (mapStatus (Status t)) d
              (position_at startIndex index) :: body), n'.
    cbn [map List.length seq position]. rewrite Hp.
    repeat split; try reflexivity.
    + constructor; [|exact Hm]. repeat split; try reflexivity. exact Hd.
    + f_equal. { f_equal. lia. }
      rewrite <- seq_shift, map_map. apply map_ext. intros j. f_equal. lia.
Qed.

Lemma createTwentyTasks_run body w :
  createTwentyTasks rt cl body w
  = match twenty_response rt (posts w) body with
    | None =>
        (Ok tt,
         mkWorld (trace w ++ [Console (CRecords body) "tasks";
                              HttpPost cl "/batch/tasks" body])
                 (S (posts w)) (clock_reads w))
    | Some e =>
        (Throw (api_error e),
         mkWorld (trace w ++ failure_events cl body e) (S (posts w)) (clock_reads w))
    end.
Proof.
  unfold createTwentyTasks, try_catch, bind, console_log, emit, axios_post, add_event.
  cbn [trace posts clock_reads].
  destruct (twenty_response rt (posts w) body) as [e|].
  - unfold handleApiError, truthy, bind, logger_error, emit, throw, add_event, api_error,
      failure_events. cbn [trace posts clock_reads].
    rewrite <- !app_assoc. reflexivity.
  - rewrite <- !app_assoc. reflexivity.
Qed.

Lemma processBatch_run i w :
  exists body n,
    carried rt l b i body
    /\ processBatch rt (DArray l) (JInt i) (JInt b) cl w
       = match twenty_response rt (posts w) body with
         | None => (Ok tt, mkWorld (trace w ++ batch_events cl b i body) (S (posts w)) n)
         | Some e =>
             (Throw (api_error e),
              mkWorld (trace w ++ failure_events cl body e) (S (posts w)) n)
         end.
Proof.
  destruct (array_map_from_run (JInt i) (array_slice l i (i + b)) 0 w)
    as (body & n & Hm & _).
  exists body, n. split.
  { exists w, n. exact Hm. }
  change (processBatch rt (DArray l) (JInt i) (JInt b) cl)
    with (bind (array_map (callback rt (JInt i)) (array_slice l i (i + b)))
            (fun twentyTasks =>
               bind (createTwentyTasks rt cl twentyTasks) (fun _ =>
               bind (logger_info
                       [Lit "Processed batch ";
                        Num (js_add (js_floor_div (JInt i) (JInt b)) (JInt 1))]) (fun _ =>
               sleep 1000)))).
  unfold bind at 1. unfold array_map. rewrite Hm.
  unfold bind at 1. rewrite createTwentyTasks_run.
  cbn [posts trace clock_reads set_reads].
  destruct (twenty_response rt (posts w) body) as [e|]; [reflexivity|].
  unfold bind, logger_info, sleep, emit, add_event, batch_events.
  cbn [trace posts clock_reads]. rewrite <- !app_assoc. reflexivity.
Qed.

Lemma batches_loop_eq fuel i w :
  batches_loop fuel rt (DArray l) (JInt i) (JInt b) cl w
  = if i <? N then
      match fuel with
      | O => (Stop OutOfFuel, w)
      | S fuel' =>
          bind (processBatch rt (DArray l) (JInt i) (JInt b) cl)
               (fun _ => batches_loop fuel' rt (DArray l) (JInt (i + b)) (JInt b) cl) w
      end
    else (Ok tt, w).
Proof.
  destruct fuel; cbn [batches_loop]; unfold bind at 1;
    cbn [prop_length ret length_number js_lt]; destruct (i <? N); reflexivity.
Qed.

Lemma carried_facts i body :
  carried rt l b i body ->
  Forall2 (mapped rt) (array_slice l i (i + b)) body
  /\ map position body
     = map (fun j => JInt (i + Z.of_nat j + 1))
           (seq 0 (List.length (array_slice l i (i + b)))).
Proof.
  intros (w & n & Hc).
  destruct (array_map_from_run (JInt i) (array_slice l i (i + b)) 0 w)
    as (body' & n' & Hm & HF & Hp).
  unfold array_map in Hc. rewrite Hm in Hc. injection Hc as <- _.
  split; [exact HF|]. rewrite Hp. apply map_ext. intros j.
  unfold position_at. cbn [js_add]. reflexivity.
Qed.

Lemma Schedule_posted i p bodies evs out :
  Schedule rt cl l b i p bodies evs out ->
  posted evs = bodies
  /\ filter is_http evs = map (HttpPost cl "/batch/tasks") bodies.
Proof.
  induction 1 as [| i p body bodies evs out _ _ _ _ [IH1 IH2] |].
  - split; reflexivity.
  - cbn. rewrite IH1, IH2. split; reflexivity.
  - split; reflexivity.
Qed.

Lemma Schedule_images i p bodies evs out :
  Schedule rt cl l b i p bodies evs out ->
  Forall2 (Forall2 (mapped rt)) (slices (List.length bodies) l b i) bodies.
Proof.
  induction 1 as [| i p body bodies evs out _ Hc _ _ IH | i p body e _ Hc _].
  - constructor.
  - cbn. constructor; [apply (carried_facts _ _ Hc) | exact IH].
  - cbn. constructor; [apply (carried_facts _ _ Hc) | constructor].
Qed.

Lemma Schedule_all_written i p bodies evs out :
  Schedule rt cl l b i p bodies evs out ->
  (forall j body, twenty_response rt j body = None) ->
  out = Completed.
Proof.
  induction 1 as [| | i p body e _ _ R]; intros Hok; auto.
  rewrite Hok in R. discriminate.
Qed.

Hypothesis b_pos : 1 <= b.

(** The loop follows a schedule, whatever the destination answers. *)
Lemma batches_loop_schedule : forall fuel i w,
  N - i < Z.of_nat fuel ->
  exists bodies evs out n,
    Schedule rt cl l b i (posts w) bodies evs out
    /\ batches_loop fuel rt (DArray l) (JInt i) (JInt b) cl w
       = (result_of out, mkWorld (trace w ++ evs) (posts w + List.length bodies) n).
Proof.
  induction fuel as [|fuel IH]; intros i w Hf; rewrite batches_loop_eq.
  - destruct (i <? N) eqn:E; [apply Z.ltb_lt in E; lia | apply Z.ltb_ge in E].
    exists [], [], Completed, (clock_reads w). split; [constructor; exact E|].
    destruct w; cbn. rewrite app_nil_r, Nat.add_0_r. reflexivity.
  - destruct (i <? N) eqn:E; [apply Z.ltb_lt in E | apply Z.ltb_ge in E].
    + destruct (processBatch_run i w) as (body & n & Hc & Hp).
      unfold bind. rewrite Hp.
      destruct (twenty_response rt (posts w) body) as [e|] eqn:R.
      * exists [body], (failure_events cl body e), (Failed e), n.
        split; [apply Schedule_fail; assumption|].
        cbn [result_of List.length]. f_equal. f_equal. lia.
      * destruct (IH (i + b) (mkWorld (trace w ++ batch_events cl b i body) (S (posts w)) n))
          as (bodies & evs & out & n' & Hs & ->); [rewrite Nat2Z.inj_succ in Hf; lia|].
        cbn [trace posts] in *.
        exists (body :: bodies), (batch_events cl b i body ++ evs)%list, out, n'.
        split; [apply Schedule_write; assumption|].
        cbn [List.length]. rewrite <- app_assoc. f_equal. f_equal. lia.
    + exists [], [], Completed, (clock_reads w). split; [constructor; exact E|].
      destruct w; cbn. rewrite app_nil_r, Nat.add_0_r. reflexivity.
Qed.

Lemma Schedule_completed i p bodies evs :
  Schedule rt cl l b i p bodies evs Completed ->
  0 <= i ->
  List.length bodies = batch_count (N - i) b
  /\ map position (List.concat bodies)
     = map (fun j => JInt (i + Z.of_nat j + 1)) (seq 0 (Z.to_nat (N - i))).
Proof.
  intros H. remember Completed as out eqn:Eo.
  induction H as [i p Hi | i p body bodies evs out Hi Hc _ _ IH |]; intros Hnn.
  - split; [symmetry; apply (batch_count_done l b b_pos); exact Hi |].
    replace (Z.to_nat (N - i)) with O by lia. reflexivity.
  - destruct (IH Eo ltac:(lia)) as [IH1 IH2].
    destruct (carried_facts _ _ Hc) as [_ Hp].
    rewrite (array_slice_length l b b_pos) in Hp by lia.
    split.
    + cbn [List.length]. rewrite IH1. symmetry.
      apply (batch_count_step l b b_pos); assumption.
    + cbn [List.concat]. rewrite map_app, Hp, IH2.
      replace (Z.to_nat (N - i))
        with (Z.to_nat (Z.min b (N - i)) + Z.to_nat (N - (i + b)))%nat by lia.
      rewrite seq_app, map_app. f_equal. cbn [Nat.add].
      destruct (Z.le_gt_cases b (N - i)) as [Hb | Hb].
      * etransitivity; [| symmetry; apply map_seq_offset].
        apply map_ext. intros j. f_equal. lia.
      * replace (Z.to_nat (N - (i + b))) with O by lia. reflexivity.
  - discriminate.
Qed.

Lemma Schedule_first_failure i p bodies evs out :
  Schedule rt cl l b i p bodies evs out ->
  forall q e,
    0 <= i -> (p <= q)%nat ->
    (forall j body, (p <= j < q)%nat -> twenty_response rt j body = None) ->
    (forall body, twenty_response rt q body = Some e) ->
    (q - p < batch_count (N - i) b)%nat ->
    out = Failed e
    /\ List.length bodies = S (q - p)
    /\ exists pre body, evs = (pre ++ failure_events cl body e)%list.
Proof.
  induction 1 as [i p Hi | i p body bodies evs out Hi Hc R _ IH | i p body e' Hi Hc R];
    intros q e H0 Hpq Hbefore Hat Hcount.
  - rewrite (batch_count_done l b b_pos) in Hcount by exact Hi. lia.
  - assert (p <> q) by (intros ->; rewrite Hat in R; discriminate).
    rewrite (batch_count_step l b b_pos) in Hcount by exact Hi.
    destruct (IH q e) as (-> & Hlen & pre & body' & ->); try lia; try assumption.
    { intros j body' Hj. apply Hbefore. lia. }
    split; [reflexivity|]. split; [cbn [List.length]; lia|].
    exists (batch_events cl b i body ++ pre)%list, body'. rewrite app_assoc. reflexivity.
  - destruct (Nat.eq_dec p q) as [-> | Hne].
    + rewrite Hat in R. injection R as ->.
      split; [reflexivity|]. split; [cbn; lia|]. exists [], body. reflexivity.
    + rewrite Hbefore in R by lia. discriminate.
Qed.

End TaskRun.

Section TaskMain.
Import TaskMigration.
Variable rt : Rt.
Variable is_url : string -> bool.
Variable env : Env.
Variable config : Config.
Variable l : list ZohoTask.
Variable b : Z.
Variable fuel : nat.
Hypothesis env_ok : EnvSchema_parse is_url env = inr config.
Hypothesis fetched : zoho_response rt = inr (BodyWith (DArray l)).
Hypothesis batch_size : BATCH_SIZE config = JInt b.
Hypothesis b_pos : 1 <= b.
Hypothesis fuel_ok : (List.length l < fuel)%nat.

(** After a valid environment and a fetched array, [main] is the
    prologue, a schedule of batches from index 0, and the epilogue. *)
Lemma main_schedule :
  exists bodies evs out n,
    Schedule rt (twentyAxios env config) l b 0 0 bodies evs out
    /\ main fuel is_url rt env start
       = (main_result out,
          mkWorld (prologue env config (List.length l) ++ evs ++ epilogue out)
                  (List.length bodies) n).
Proof.
  destruct (batches_loop_schedule rt (twentyAxios env config) l b b_pos fuel 0
              (mkWorld (prologue env config (List.length l)) 0 0))
    as (bodies & evs & out & n & Hs & Hl); [lia|].
  exists bodies, evs, out, n. split; [exact Hs|].
  unfold main, try_catch at 1. rewrite env_ok. unfold bind at 1, ret at 1.
  unfold migrateTasks, try_catch at 1.
  unfold bind at 1, logger_info at 1, emit at 1.
  unfold bind at 1, fetchZohoTasks, try_catch at 1, bind at 1, axios_get.
  rewrite fetched. cbn [response_data_data ret].
  unfold bind at 1. cbn [prop_length ret].
  unfold bind at 1, logger_info at 1, emit at 1.
  unfold bind at 1. rewrite batch_size.
  fold (zohoAxios env config) (twentyAxios env config).
  change (add_event _ (add_event _ (add_event _ start)))
    with (mkWorld (prologue env config (List.length l)) 0 0).
  rewrite Hl. cbn [trace posts Nat.add].
  destruct out as [|e]; cbn [result_of main_result epilogue].
  - unfold logger_info, emit, add_event. cbn [trace posts clock_reads].
    rewrite <- app_assoc. reflexivity.
  - unfold bind, logger_error, emit, throw, process_exit, add_event, api_error.
    cbn [trace posts clock_reads]. rewrite <- !app_assoc. reflexivity.
Qed.

End TaskMain.

(** ** Positions *)


(** A batch of the contact script is numbered from 1, whatever its
    start index. *)
Lemma contact_batch_positions (batch : list ContactMigration.ZohoContact) :
  forall index,
    map ContactMigration.position
        (array_mapi_from ContactMigration.mapToTwentyContact index batch)
    = map (fun j => JInt (index + Z.of_nat j + 1)) (seq 0 (List.length batch)).
Proof.
  induction batch as [|c batch IH]; intros index; [reflexivity|].
  cbn [array_mapi_from map List.length seq]. rewrite IH. f_equal.
  - cbn. f_equal. lia.
  - rewrite <- seq_shift, map_map. apply map_ext. intros j. f_equal. lia.
Qed.

(** C1 (as the contact script runs): two contacts migrated at batch size 1
    are both written with position 1, where the claim has 1 and 2. *)
Theorem contact_positions_restart_per_batch :
  let contacts := [example_contact "Ada" "GB"; example_contact "Grace" "US"]%list in
  let rt := example_contacts_rt (inr (BodyWith (DArray contacts))) in
  let run :=
    ContactMigration.main 3 https_host_url rt (example_env (Some "1")) start in
  fst run = Ok tt
  /\ map (map ContactMigration.position) (posted (trace (snd run)))
     = [[JInt 1]; [JInt 1]]%list.
Proof. vm_compute. split; reflexivity. Qed.

(** ** Status translation *)

Lemma mapStatus_known :
  TaskMigration.mapStatus "Open" = PString "TODO"
  /\ TaskMigration.mapStatus "Completed" = PString "DONE".
Proof. split; reflexivity. Qed.

(** A status that is no key of the table and no member of
    Object.prototype translates to TODO. *)
Lemma mapStatus_default s :
  own_property TaskMigration.statusMap s = None ->
  existsb (String.eqb s) Object_prototype = false ->
  TaskMigration.mapStatus s = PString "TODO".
Proof.
  intros Hown Hproto. unfold TaskMigration.mapStatus, get_member.
  rewrite Hown, Hproto. reflexivity.
Qed.

(** C2 (as the table is written): "In Progress" translates to the
    misspelt IN_PROGESS, and a status that names a member of
    Object.prototype translates to that member, not to TODO. *)
Theorem mapStatus_In_Progress_misspelt :
  TaskMigration.mapStatus "In Progress" = PString "IN_PROGESS"
  /\ TaskMigration.mapStatus "In Progress" <> PString "IN_PROGRESS"
  /\ TaskMigration.mapStatus "constructor" = PInherited "constructor".
Proof. repeat split; try reflexivity. discriminate. Qed.

(** ** Determinism of the mapping *)

(** C3, counterexample: a task whose due date does not parse, mapped twice
    in a row at the same position, gives two different records: each
    application reads the clock. *)
Lemma mapToTwentyTask_reads_the_clock :
  let rt := example_rt (inr (BodyWith (DArray example_tasks))) None in
  let task := example_task "Demo" "In Progress" "TBD" in
  let first := TaskMigration.mapToTwentyTask rt task (JInt 1) start in
  fst first <> fst (TaskMigration.mapToTwentyTask rt task (JInt 1) (snd first)).
Proof. vm_compute. discriminate. Qed.

(** C3, amended: two applications of the task mapping to the same record
    and position give the same record when the due date parses or both
    read the same clock value; the mapping sends no request and logs
    nothing.  (The contact mapping is a function of its arguments.) *)
Theorem mapToTwentyTask_deterministic
  (rt : TaskMigration.Rt) (task : TaskMigration.ZohoTask) (p : JsNumber)
  (w1 w2 : World TaskMigration.ZohoTask TaskMigration.TwentyTask) :
  new_Date rt (TaskMigration.Due_Date task) <> None
  \/ Date_now rt (clock_reads w1) = Date_now rt (clock_reads w2) ->
  fst (TaskMigration.mapToTwentyTask rt task p w1)
  = fst (TaskMigration.mapToTwentyTask rt task p w2)
  /\ trace (snd (TaskMigration.mapToTwentyTask rt task p w1)) = trace w1
  /\ posts (snd (TaskMigration.mapToTwentyTask rt task p w1)) = posts w1.
Proof.
  intros H.
  unfold TaskMigration.mapToTwentyTask, TaskMigration.validateDate, bind.
  destruct (new_Date rt (TaskMigration.Due_Date task)) as [t|].
  - cbn. auto.
  - cbn. destruct H as [H | H]; [congruence|]. rewrite H. auto.
Qed.

Lemma mapToTwentyTask_deterministic_witness :
  let rt := example_rt (inr (BodyWith (DArray example_tasks))) None in
  let task := example_task "Call" "Open" "2024-03-15" in
  fst (TaskMigration.mapToTwentyTask rt task (JInt 1) start)
  = fst (TaskMigration.mapToTwentyTask rt task (JInt 1) (mkWorld [] 0 7)).
Proof.
  intros rt task.
  apply (mapToTwentyTask_deterministic rt task (JInt 1) start (mkWorld [] 0 7)).
  left. vm_compute. discriminate.
Defined.

(** ** Batching *)



(** ** A rejected write *)

(** C5: when the destination rejects the write number q (counted from 0)
    and accepted the earlier ones, [main] of the task script ends with
    [process.exit(1)]; it sent q + 1 writes, one per batch from the first
    to the rejected one; besides the GET nothing else went over the
    network, so no later batch was written and no earlier one undone; and
    after the rejected write it only logged the failure and left. *)
Theorem write_failure_aborts
  (fuel : nat) (is_url : string -> bool) (rt : TaskMigration.Rt) (env : Env)
  (config : Config) (l : list TaskMigration.ZohoTask) (b : Z) (q : nat)
  (e : AxiosErr) :
  EnvSchema_parse is_url env = inr config ->
  zoho_response rt = inr (BodyWith (DArray l)) ->
  BATCH_SIZE config = JInt b -> 1 <= b -> (List.length l < fuel)%nat ->
  (q < batch_count (Z.of_nat (List.length l)) b)%nat ->
  (forall j body, (j < q)%nat -> twenty_response rt j body = None) ->
  (forall body, twenty_response rt q body = Some e) ->
  exists w' bodies pre body,
    TaskMigration.main fuel is_url rt env start = (Stop (Exited 1), w')
    /\ posted (trace w') = bodies
    /\ List.length bodies = S q
    /\ posts w' = S q
    /\ Forall2 (Forall2 (mapped rt)) (slices (S q) l b 0) bodies
    /\ filter is_http (trace w')
       = (HttpGet (zohoAxios env config) "/crm/v2/Tasks"
          :: map (HttpPost (twentyAxios env config) "/batch/tasks") bodies)%list
    /\ trace w'
       = (pre ++ failure_events (twentyAxios env config) body e
              ++ epilogue (Failed e))%list.
Proof.
  intros Henv Hget Hsize Hb Hf Hq Hbefore Hat.
  destruct (main_schedule rt is_url env config l b fuel Henv Hget Hsize Hb Hf)
    as (bodies & evs & out & n & Hs & Hmain).
  destruct (Schedule_first_failure rt _ l b Hb _ _ _ _ _ Hs q e)
    as (-> & Hlen & pre & body & ->); try lia; try assumption.
  { intros j body' Hj. apply Hbefore. lia. }
  { rewrite Z.sub_0_r. lia. }
  destruct (Schedule_posted _ _ _ _ _ _ _ _ _ Hs) as [Hposted Hhttp].
  pose proof (Schedule_images _ _ _ _ _ _ _ _ _ Hs) as Him.
  rewrite Nat.sub_0_r in Hlen. rewrite Hlen in Him.
  eexists _, bodies, (prologue env config (List.length l) ++ pre)%list, body.
  split; [exact Hmain|]. cbn [trace posts].
  repeat split.
  - rewrite posted_app, (posted_app (pre ++ _)), Hposted. cbn. apply app_nil_r.
  - exact Hlen.
  - exact Hlen.
  - exact Him.
  - rewrite filter_app, (filter_app _ (pre ++ _)), Hhttp. cbn.
    rewrite app_nil_r. reflexivity.
  - rewrite <- !app_assoc. reflexivity.
Qed.

Lemma write_failure_aborts_witness :
  exists w' bodies,
    TaskMigration.main 6 https_host_url
      (example_rt (inr (BodyWith (DArray example_tasks))) (Some 1%nat))
      (example_env (Some "2")) start
    = (Stop (Exited 1), w')
    /\ posted (trace w') = bodies
    /\ List.length bodies = 2%nat.
Proof.
  destruct (write_failure_aborts 6 https_host_url
              (example_rt (inr (BodyWith (DArray example_tasks))) (Some 1%nat))
              (example_env (Some "2"))
              (mkConfig "https://www.zohoapis.com" "zoho-key"
                        "https://api.twenty.com" "twenty-key" (JInt 2) (JInt 5))
              example_tasks 2 1
              (mkAxiosErr "Request failed with status code 503"
                 (Some (mkResponse 503 (Some "Service Unavailable")))))
    as (w' & bodies & _ & _ & Hrun & Hposted & Hlen & _).
  - reflexivity.
  - reflexivity.
  - reflexivity.
  - lia.
  - cbn. lia.
  - vm_compute. lia.
  - intros j body Hj. assert (j = O) by lia. subst j. reflexivity.
  - reflexivity.
  - exists w', bodies. auto.
Defined.

(** ** Environment validation *)

(** C6, counterexample: with the four required values in place, a
    BATCH_SIZE of "0" passes validation and gives the batch size 0, which
    is no positive integer. *)
Lemma EnvSchema_accepts_batch_size_zero :
  EnvSchema_parse https_host_url (example_env (Some "0"))
  = inr (mkConfig "https://www.zohoapis.com" "zoho-key"
                  "https://api.twenty.com" "twenty-key" (JInt 0) (JInt 5)).
Proof. reflexivity. Qed.

(** C6, amended: validation accepts the environment when the two base
    URLs are present and pass the URL check and the two API keys are
    present and not empty, and only then; BATCH_SIZE and
    RATE_LIMIT_PER_SECOND are never rejected: each is [Number] of the
    variable, or 50 and 5 when the variable is absent.  When one of the
    four required values is missing or malformed, validation fails with
    at least one issue, and [main] of either script logs the issues and
    calls [process.exit(1)] having sent no request. *)
Theorem EnvSchema_parse_checks_required_only (is_url : string -> bool) (env : Env) :
  (forall zu zk tu tk,
      env_ZOHO_BASE_URL env = Some zu /\ is_url zu = true
      /\ env_ZOHO_API_KEY env = Some zk /\ zk <> ""
      /\ env_TWENTY_BASE_URL env = Some tu /\ is_url tu = true
      /\ env_TWENTY_API_KEY env = Some tk /\ tk <> ""
      ->
      EnvSchema_parse is_url env
      = inr (mkConfig zu zk tu tk
               match env_BATCH_SIZE env with Some s => Number s | None => JInt 50 end
               match env_RATE_LIMIT_PER_SECOND env with
               | Some s => Number s
               | None => JInt 5
               end))
  /\ (forall config,
        EnvSchema_parse is_url env = inr config ->
        env_ZOHO_BASE_URL env = Some (ZOHO_BASE_URL config)
        /\ is_url (ZOHO_BASE_URL config) = true
        /\ env_ZOHO_API_KEY env = Some (ZOHO_API_KEY config)
        /\ ZOHO_API_KEY config <> ""
        /\ env_TWENTY_BASE_URL env = Some (TWENTY_BASE_URL config)
        /\ is_url (TWENTY_BASE_URL config) = true
        /\ env_TWENTY_API_KEY env = Some (TWENTY_API_KEY config)
        /\ TWENTY_API_KEY config <> "")
  /\ ((forall s, env_ZOHO_BASE_URL env = Some s -> is_url s = false)
      \/ (forall s, env_ZOHO_API_KEY env = Some s -> s = "")
      \/ (forall s, env_TWENTY_BASE_URL env = Some s -> is_url s = false)
      \/ (forall s, env_TWENTY_API_KEY env = Some s -> s = "")
      ->
      exists issues,
        EnvSchema_parse is_url env = inl issues
        /\ issues <> []%list
        /\ (forall fuel rt,
              TaskMigration.main fuel is_url rt env start
              = (Stop (Exited 1),
                 mkWorld [Log LevelError [Lit "Environment validation failed"]
                              (IssuesMeta issues); Exit 1] 0 0))
        /\ (forall fuel rt,
              ContactMigration.main fuel is_url rt env start
              = (Stop (Exited 1),
                 mkWorld [Log LevelError [Lit "Environment validation failed"]
                              (IssuesMeta issues); Exit 1] 0 0))).
Proof.
  split; [|split].
  - intros zu zk tu tk (Ha & Ea & Hc & Hzk & Hd & Ed & Hf & Htk).
    unfold EnvSchema_parse, z_string_url, z_string_min1.
    rewrite Ha, Hc, Hd, Hf, Ea, Ed.
    apply String.eqb_neq in Hzk, Htk. rewrite Hzk, Htk.
    destruct (env_BATCH_SIZE env), (env_RATE_LIMIT_PER_SECOND env); reflexivity.
  - intros config. unfold EnvSchema_parse, z_string_url, z_string_min1.
    destruct (env_ZOHO_BASE_URL env) as [a|]; [destruct (is_url a) eqn:Ea|];
      (destruct (env_ZOHO_API_KEY env) as [c|]; [destruct (String.eqb c "") eqn:Ec|]);
      (destruct (env_TWENTY_BASE_URL env) as [d|]; [destruct (is_url d) eqn:Ed|]);
      (destruct (env_TWENTY_API_KEY env) as [f|]; [destruct (String.eqb f "") eqn:Ef|]);
      try discriminate.
    intros [= <-]. cbn. apply String.eqb_neq in Ec, Ef. auto 10.
  - intros Hbad.
    assert (Hparse : exists issues,
               EnvSchema_parse is_url env = inl issues /\ issues <> []%list).
    { unfold EnvSchema_parse, z_string_url, z_string_min1.
      destruct (env_ZOHO_BASE_URL env) as [a|]; [destruct (is_url a) eqn:Ea|];
        (destruct (env_ZOHO_API_KEY env) as [c|]; [destruct (String.eqb c "") eqn:Ec|]);
        (destruct (env_TWENTY_BASE_URL env) as [d|]; [destruct (is_url d) eqn:Ed|]);
        (destruct (env_TWENTY_API_KEY env) as [f|]; [destruct (String.eqb f "") eqn:Ef|]);
        try (eexists; split; [reflexivity | discriminate]).
      exfalso. destruct Hbad as [H | [H | [H | H]]].
      - specialize (H a eq_refl). congruence.
      - specialize (H c eq_refl). subst c. discriminate.
      - specialize (H d eq_refl). congruence.
      - specialize (H f eq_refl). subst f. discriminate. }
    destruct Hparse as (issues & Hparse & Hne).
    exists issues. split; [exact Hparse|]. split; [exact Hne|].
    split; intros fuel rt.
    + unfold TaskMigration.main, try_catch, bind. rewrite Hparse. reflexivity.
    + unfold ContactMigration.main, try_catch, bind. rewrite Hparse. reflexivity.
Qed.

(** ** Date normalization *)

(** C7: [validateDate] returns, for every string, a timestamp in the
    format of [toISOString] that reads back as a valid date.  When the
    string parses to the instant t the result is [toISOString t], which
    reads back as t; when it does not parse the result is [toISOString]
    of the clock at that moment.  Nothing is sent or logged. *)
Theorem validateDate_normalizes
  (rt : TaskMigration.Rt) (date : string)
  (w : World TaskMigration.ZohoTask TaskMigration.TwentyTask) :
  valid_time (Date_now rt (clock_reads w)) ->
  exists out w',
    TaskMigration.validateDate rt date w = (Ok out, w')
    /\ trace w' = trace w /\ posts w' = posts w
    /\ (forall t, new_Date rt date = Some t ->
                  out = toISOString t /\ iso_parse out = Some t)
    /\ (new_Date rt date = None -> out = toISOString (Date_now rt (clock_reads w)))
    /\ exists t, iso_parse out = Some t /\ valid_time t /\ toISOString t = out.
Proof.
  intros Hnow. unfold TaskMigration.validateDate.
  destruct (new_Date rt date) as [t|] eqn:E.
  - assert (V : valid_time t).
    { unfold new_Date in E. destruct (Date_parse rt date) as [t0|]; [|discriminate].
      apply TimeClip_Some in E as [-> V]. exact V. }
    exists (toISOString t), w.
    split; [reflexivity|]. split; [reflexivity|]. split; [reflexivity|].
    split.
    { intros t' [= <-]. split; [reflexivity | apply iso_roundtrip; exact V]. }
    split; [discriminate|].
    exists t. auto using iso_roundtrip.
  - eexists _, _. unfold bind, new_Date_now, ret. split; [reflexivity|].
    cbn [trace posts].
    split; [reflexivity|]. split; [reflexivity|].
    split; [discriminate|]. split; [reflexivity|].
    exists (Date_now rt (clock_reads w)). auto using iso_roundtrip.
Qed.

(** With an engine that reads the date-time string format as
    [iso_parse] does, normalizing a normalized date changes nothing. *)
Lemma validateDate_idempotent
  (rt : TaskMigration.Rt) (t : Z)
  (w : World TaskMigration.ZohoTask TaskMigration.TwentyTask) :
  valid_time t ->
  Date_parse rt (toISOString t) = iso_parse (toISOString t) ->
  TaskMigration.validateDate rt (toISOString t) w = (Ok (toISOString t), w).
Proof.
  intros V Hengine. unfold TaskMigration.validateDate, new_Date.
  rewrite Hengine, (iso_roundtrip t V), (TimeClip_valid t V). reflexivity.
Qed.

Lemma validateDate_normalizes_witness :
  exists out w',
    TaskMigration.validateDate
      (example_rt (inr (BodyWith (DArray example_tasks))) None) "2024-03-15" start
    = (Ok out, w')
    /\ out = "2024-03-15T00:00:00.000Z".
Proof.
  destruct (validateDate_normalizes
              (example_rt (inr (BodyWith (DArray example_tasks))) None)
              "2024-03-15" start)
    as (out & w' & Hrun & _ & _ & Hparsed & _).
  - vm_compute. split; discriminate.
  - exists out, w'. split; [exact Hrun|].
    apply (Hparsed 1710460800000). reflexivity.
Defined.

(** ** Failures of the two APIs *)

(** C8, counterexample: a 429 and a 503 that carry the same message
    propagate as one and the same error; the status code is in the log
    entry only. *)
Lemma status_code_is_not_propagated :
  let too_many :=
    AxiosError (mkAxiosErr "Request failed with status code 429"
                  (Some (mkResponse 429 (Some "Rate limit exceeded")))) in
  let unavailable :=
    AxiosError (mkAxiosErr "Request failed with status code 503"
                  (Some (mkResponse 503 (Some "Rate limit exceeded")))) in
  let w : World TaskMigration.ZohoTask TaskMigration.TwentyTask := start in
  statusCode_of too_many <> statusCode_of unavailable
  /\ fst (handleApiError (A := unit) too_many w)
     = Throw (PlainError "API Error: Rate limit exceeded")
  /\ fst (handleApiError (A := unit) unavailable w)
     = Throw (PlainError "API Error: Rate limit exceeded").
Proof. repeat split. discriminate. Qed.

(** ** The contact mapping *)

Lemma contact_country_codes (batch : list ContactMigration.ZohoContact) :
  forall index,
    map (fun d => ContactMigration.primaryPhoneCountryCode (ContactMigration.phones d))
        (array_mapi_from ContactMigration.mapToTwentyContact index batch)
    = map (fun c => Some (ContactMigration.Mailing_Country c)) batch.
Proof.
  induction batch as [|c batch IH]; intros index; [reflexivity|].
  cbn [array_mapi_from map]. rewrite IH. reflexivity.
Qed.

(** C9: the mapped contact's phones.primaryPhoneCountryCode is the source
    record's Mailing_Country, as it stands; so it is for every contact of
    a mapped batch. *)
Theorem contact_country_code_is_mailing_country
  (zohoContact : ContactMigration.ZohoContact) (index : Z)
  (batch : list ContactMigration.ZohoContact) :
  ContactMigration.primaryPhoneCountryCode
    (ContactMigration.phones (ContactMigration.mapToTwentyContact zohoContact index))
  = Some (ContactMigration.Mailing_Country zohoContact)
  /\ map (fun d => ContactMigration.primaryPhoneCountryCode (ContactMigration.phones d))
         (array_mapi ContactMigration.mapToTwentyContact batch)
     = map (fun c => Some (ContactMigration.Mailing_Country c)) batch.
Proof. split; [reflexivity | apply contact_country_codes]. Qed.

(** ** What the fetch returns *)



(** * Further properties *)

(** ** The contact script, step by step *)

Section ContactRun.
Import ContactMigration.
Variable rt : Rt.
Variable cl : Client.
Variable l : list ZohoContact.
Variable b : Z.
Local Abbreviation N := (Z.of_nat (List.length l)) (only parsing).

Lemma createTwentyContacts_run body w :
  createTwentyContacts rt cl body w
  = match twenty_response rt (posts w) body with
    | None =>
        (Ok tt,
         mkWorld (trace w ++ [HttpPost cl "/batch/people" body])
                 (S (posts w)) (clock_reads w))
    | Some e =>
        (Throw (api_error e),
         mkWorld (trace w ++ [HttpPost cl "/batch/people" body; api_error_log e])
                 (S (posts w)) (clock_reads w))
    end.
Proof.
  unfold createTwentyContacts, try_catch, axios_post.
  destruct (twenty_response rt (posts w) body) as [e|]; [|reflexivity].
  unfold handleApiError, truthy, bind, logger_error, emit, throw, add_event, api_error,
    api_error_log. cbn [trace posts clock_reads].
  rewrite <- !app_assoc. reflexivity.
Qed.

Lemma contact_processBatch_run i w :
  processBatch rt (DArray l) (JInt i) (JInt b) cl w
  = match twenty_response rt (posts w) (contact_body l b i) with
    | None =>
        (Ok tt,
         mkWorld (trace w ++ contact_batch_events cl l b i) (S (posts w)) (clock_reads w))
    | Some e =>
        (Throw (api_error e),
         mkWorld (trace w ++ contact_failure_events cl l b i e) (S (posts w))
                 (clock_reads w))
    end.
Proof.
  change (processBatch rt (DArray l) (JInt i) (JInt b) cl)
    with (bind (createTwentyContacts rt cl (contact_body l b i)) (fun _ =>
          bind (logger_info
                  [Lit "Processed batch ";
                   Num (js_add (js_floor_div (JInt i) (JInt b)) (JInt 1))]) (fun _ =>
          sleep 1000))).
  unfold bind at 1. rewrite createTwentyContacts_run.
  destruct (twenty_response rt (posts w) (contact_body l b i)) as [e|]; [reflexivity|].
  unfold bind, logger_info, sleep, emit, add_event, contact_batch_events.
  cbn [trace posts clock_reads]. rewrite <- !app_assoc. reflexivity.
Qed.

Lemma contact_batches_loop_eq fuel i w :
  batches_loop fuel rt (DArray l) (JInt i) (JInt b) cl w
  = if i <? N then
      match fuel with
      | O => (Stop OutOfFuel, w)
      | S fuel' =>
          bind (processBatch rt (DArray l) (JInt i) (JInt b) cl)
               (fun _ => batches_loop fuel' rt (DArray l) (JInt (i + b)) (JInt b) cl) w
      end
    else (Ok tt, w).
Proof.
  destruct fuel; cbn [batches_loop]; unfold bind at 1;
    cbn [prop_length ret length_number js_lt]; destruct (i <? N); reflexivity.
Qed.

Lemma ContactSchedule_posted i p bodies evs out :
  ContactSchedule rt cl l b i p bodies evs out ->
  posted evs = bodies
  /\ filter is_http evs = map (HttpPost cl "/batch/people") bodies.
Proof.
  induction 1 as [| i p bodies evs out _ _ _ [IH1 IH2] |].
  - split; reflexivity.
  - cbn. rewrite IH1, IH2. split; reflexivity.
  - split; reflexivity.
Qed.

Lemma ContactSchedule_bodies i p bodies evs out :
  ContactSchedule rt cl l b i p bodies evs out ->
  bodies
  = map (array_mapi mapToTwentyContact) (slices (List.length bodies) l b i).
Proof.
  induction 1 as [| i p bodies evs out _ _ _ IH |].
  - reflexivity.
  - cbn [List.length slices map]. rewrite <- IH. reflexivity.
  - reflexivity.
Qed.

Lemma ContactSchedule_all_written i p bodies evs out :
  ContactSchedule rt cl l b i p bodies evs out ->
  (forall j body, twenty_response rt j body = None) ->
  out = Completed.
Proof.
  induction 1 as [| | i p e _ R]; intros Hok; auto.
  rewrite Hok in R. discriminate.
Qed.

Hypothesis b_pos : 1 <= b.

Lemma contact_batches_loop_schedule : forall fuel i w,
  N - i < Z.of_nat fuel ->
  exists bodies evs out,
    ContactSchedule rt cl l b i (posts w) bodies evs out
    /\ batches_loop fuel rt (DArray l) (JInt i) (JInt b) cl w
       = (result_of out,
          mkWorld (trace w ++ evs) (posts w + List.length bodies) (clock_reads w)).
Proof.
  induction fuel as [|fuel IH]; intros i w Hf; rewrite contact_batches_loop_eq.
  - destruct (i <? N) eqn:E; [apply Z.ltb_lt in E; lia | apply Z.ltb_ge in E].
    exists [], [], Completed. split; [constructor; exact E|].
    destruct w; cbn. rewrite app_nil_r, Nat.add_0_r. reflexivity.
  - destruct (i <? N) eqn:E; [apply Z.ltb_lt in E | apply Z.ltb_ge in E].
    + unfold bind. rewrite contact_processBatch_run.
      destruct (twenty_response rt (posts w) (contact_body l b i)) as [e|] eqn:R.
      * exists [contact_body l b i], (contact_failure_events cl l b i e), (Failed e).
        split; [apply ContactSchedule_fail; assumption|].
        cbn [result_of List.length]. f_equal. f_equal. lia.
      * destruct (IH (i + b)
                    (mkWorld (trace w ++ contact_batch_events cl l b i) (S (posts w))
                             (clock_reads w)))
          as (bodies & evs & out & Hs & ->); [rewrite Nat2Z.inj_succ in Hf; lia|].
        cbn [trace posts clock_reads] in *.
        exists (contact_body l b i :: bodies),
          (contact_batch_events cl l b i ++ evs)%list, out.
        split; [apply ContactSchedule_write; assumption|].
        cbn [List.length]. rewrite <- app_assoc. f_equal. f_equal. lia.
    + exists [], [], Completed. split; [constructor; exact E|].
      destruct w; cbn. rewrite app_nil_r, Nat.add_0_r. reflexivity.
Qed.

Lemma ContactSchedule_completed i p bodies evs :
  ContactSchedule rt cl l b i p bodies evs Completed ->
  List.length bodies = batch_count (N - i) b.
Proof.
  intros H. remember Completed as out eqn:Eo.
  induction H as [i p Hi | i p bodies evs out Hi _ _ IH |].
  - symmetry. apply (batch_count_done l b b_pos). exact Hi.
  - cbn [List.length]. rewrite (IH Eo). symmetry.
    apply (batch_count_step l b b_pos). exact Hi.
  - discriminate.
Qed.

Lemma ContactSchedule_first_failure i p bodies evs out :
  ContactSchedule rt cl l b i p bodies evs out ->
  forall q e,
    (p <= q)%nat ->
    (forall j body, (p <= j < q)%nat -> twenty_response rt j body = None) ->
    (forall body, twenty_response rt q body = Some e) ->
    (q - p < batch_count (N - i) b)%nat ->
    out = Failed e
    /\ List.length bodies = S (q - p)
    /\ exists pre body,
         evs = (pre ++ [HttpPost cl "/batch/people" body; api_error_log e])%list.
Proof.
  induction 1 as [i p Hi | i p bodies evs out Hi R _ IH | i p e' Hi R];
    intros q e Hpq Hbefore Hat Hcount.
  - rewrite (batch_count_done l b b_pos) in Hcount by exact Hi. lia.
  - assert (p <> q) by (intros ->; rewrite Hat in R; discriminate).
    rewrite (batch_count_step l b b_pos) in Hcount by exact Hi.
    destruct (IH q e) as (-> & Hlen & pre & body' & ->); try lia; try assumption.
    { intros j body' Hj. apply Hbefore. lia. }
    split; [reflexivity|]. split; [cbn [List.length]; lia|].
    exists (contact_batch_events cl l b i ++ pre)%list, body'.
    rewrite app_assoc. reflexivity.
  - destruct (Nat.eq_dec p q) as [-> | Hne].
    + rewrite Hat in R. injection R as ->.
      split; [reflexivity|]. split; [cbn; lia|].
      exists [], (contact_body l b i). reflexivity.
    + rewrite Hbefore in R by lia. discriminate.
Qed.

End ContactRun.

Section ContactMain.
Import ContactMigration.
Variable rt : Rt.
Variable is_url : string -> bool.
Variable env : Env.
Variable config : Config.
Variable l : list ZohoContact.
Variable b : Z.
Variable fuel : nat.
Hypothesis env_ok : EnvSchema_parse is_url env = inr config.
Hypothesis fetched : zoho_response rt = inr (BodyWith (DArray l)).
Hypothesis batch_size : BATCH_SIZE config = JInt b.
Hypothesis b_pos : 1 <= b.
Hypothesis fuel_ok : (List.length l < fuel)%nat.

Lemma contact_main_schedule :
  exists bodies evs out,
    ContactSchedule rt (twentyAxios env config) l b 0 0 bodies evs out
    /\ main fuel is_url rt env start
       = (main_result out,
          mkWorld (contact_prologue env config l ++ evs ++ contact_epilogue out)
                  (List.length bodies) 0).
Proof.
  destruct (contact_batches_loop_schedule rt (twentyAxios env config) l b b_pos fuel 0
              (mkWorld (contact_prologue env config l) 0 0))
    as (bodies & evs & out & Hs & Hl); [lia|].
  exists bodies, evs, out. split; [exact Hs|].
  unfold main, try_catch at 1. rewrite env_ok. unfold bind at 1, ret at 1.
  unfold migrateContacts, try_catch at 1.
  unfold bind at 1, logger_info at 1, emit at 1.
  unfold bind at 1, fetchZohoContacts, try_catch at 1, bind at 1, axios_get.
  rewrite fetched. cbn [response_data_data ret].
  unfold bind at 1, ret at 1.
  unfold bind at 1, console_log at 1, emit at 1.
  unfold bind at 1. cbn [prop_length ret].
  unfold bind at 1, logger_info at 1, emit at 1.
  unfold bind at 1. rewrite batch_size.
  fold (zohoAxios env config) (twentyAxios env config).
  change (add_event _ (add_event _ (add_event _ (add_event _ start))))
    with (mkWorld (contact_prologue env config l) 0 0).
  rewrite Hl. cbn [trace posts clock_reads Nat.add].
  destruct out as [|e]; cbn [result_of main_result contact_epilogue].
  - unfold logger_info, emit, add_event. cbn [trace posts clock_reads].
    rewrite <- app_assoc. reflexivity.
  - unfold bind, logger_error, emit, throw, process_exit, add_event, api_error.
    cbn [trace posts clock_reads]. rewrite <- !app_assoc. reflexivity.
Qed.

End ContactMain.

(** ** Counting what a schedule leaves in the trace *)

Lemma pauses_app {R D : Type} (a c : list (Event R D)) :
  pauses (a ++ c) = (pauses a + pauses c)%nat.
Proof.
  induction a as [|e a IH]; [reflexivity|].
  destruct e; cbn; rewrite IH; reflexivity.
Qed.

Lemma processed_batches_app {R D : Type} (a c : list (Event R D)) :
  processed_batches (a ++ c) = (processed_batches a ++ processed_batches c)%list.
Proof.
  induction a as [|e a IH]; [reflexivity|].
  destruct e as [lv msg meta| | | | |]; try exact IH.
  destruct lv; [|exact IH].
  destruct msg as [|[s| |] [|[|n|] [|]]]; try exact IH.
  destruct meta; try exact IH.
  cbn. destruct (String.eqb s "Processed batch "); [|exact IH].
  cbn. rewrite <- IH. reflexivity.
Qed.

Section TaskTraces.
Import TaskMigration.
Variable rt : Rt.
Variable cl : Client.
Variable l : list ZohoTask.
Variable b : Z.
Hypothesis b_pos : 1 <= b.

Lemma Schedule_pauses i p bodies evs out :
  Schedule rt cl l b i p bodies evs out ->
  pauses evs
  = match out with
    | Completed => List.length bodies
    | Failed _ => pred (List.length bodies)
    end.
Proof.
  induction 1 as [| i p body bodies evs out _ _ _ Hs IH |].
  - reflexivity.
  - cbn. rewrite IH. destruct out; [reflexivity|].
    inversion Hs; subst; reflexivity.
  - reflexivity.
Qed.

Lemma Schedule_processed i p bodies evs out :
  Schedule rt cl l b i p bodies evs out ->
  forall k, i = k * b ->
    processed_batches evs
    = map (fun j => JInt (k + Z.of_nat j + 1)) (seq 0 (pauses evs)).
Proof.
  induction 1 as [| i p body bodies evs out _ _ _ _ IH |]; intros k Hk.
  - reflexivity.
  - cbn. rewrite (IH (k + 1)) by lia. f_equal.
    + subst i. destruct (b =? 0) eqn:E; [apply Z.eqb_eq in E; lia|].
      rewrite Z.div_mul by lia. cbn [js_add]. f_equal. lia.
    + rewrite <- seq_shift, map_map. apply map_ext. intros j. f_equal. lia.
  - reflexivity.
Qed.

End TaskTraces.

(** The events of a schedule that completes: for each batch its console
    line, its POST, its "Processed batch" entry and its pause. *)
Lemma Schedule_written (rt : TaskMigration.Rt) (cl : Client)
  (l : list TaskMigration.ZohoTask) (b : Z) i p bodies evs out :
  1 <= b ->
  Schedule rt cl l b i p bodies evs out ->
  out = Completed ->
  forall k,
    i = Z.of_nat k * b ->
    evs
    = List.concat
        (map (fun jb =>
                [ Console (CRecords (snd jb)) "tasks";
                  HttpPost cl "/batch/tasks" (snd jb);
                  Log LevelInfo
                    [Lit "Processed batch "; Num (JInt (Z.of_nat (fst jb) + 1))] NoMeta;
                  Sleep 1000 ])
             (combine (seq k (List.length bodies)) bodies)).
Proof.
  intros Hb. induction 1 as [| i p body bodies evs out _ _ _ _ IH |]; intros Hout k Hk.
  - reflexivity.
  - cbn [List.length seq combine map List.concat fst snd].
    rewrite <- (IH Hout (S k)) by lia.
    unfold batch_events. subst i. cbn [js_floor_div].
    destruct (b =? 0) eqn:E; [apply Z.eqb_eq in E; lia|].
    rewrite Z.div_mul by lia. reflexivity.
  - discriminate.
Qed.

(** ** Further properties of the task script *)


(** A source status that is none of the three keys of the table and no
    member of Object.prototype translates to TODO. *)
Theorem mapStatus_unknown_is_TODO (zohoStatus : string) :
  zohoStatus <> "Open" -> zohoStatus <> "In Progress" -> zohoStatus <> "Completed" ->
  ~ In zohoStatus Object_prototype ->
  TaskMigration.mapStatus zohoStatus = PString "TODO".
Proof.
  intros H1 H2 H3 Hp. apply mapStatus_default.
  - cbn. apply String.eqb_neq in H1, H2, H3. rewrite H1, H2, H3. reflexivity.
  - destruct (existsb (String.eqb zohoStatus) Object_prototype) eqn:E; [|reflexivity].
    apply existsb_exists in E as (k & Hin & Hk). apply String.eqb_eq in Hk. subst k.
    contradiction.
Qed.

Lemma mapStatus_unknown_is_TODO_witness :
  TaskMigration.mapStatus "Deferred" = PString "TODO".
Proof.
  apply (mapStatus_unknown_is_TODO "Deferred"); try discriminate.
  cbn. intros H. repeat (destruct H as [H | H]; [discriminate|]). exact H.
Defined.

Ltac enter_task_main Henv Hget :=
  unfold TaskMigration.main, try_catch at 1; rewrite Henv;
  unfold bind at 1, ret at 1;
  unfold TaskMigration.migrateTasks, try_catch at 1;
  unfold bind at 1, logger_info at 1, emit at 1;
  unfold bind at 1, TaskMigration.fetchZohoTasks, try_catch at 1, bind at 1, axios_get;
  rewrite Hget; cbn [response_data_data ret];
  unfold bind at 1; cbn [prop_length ret];
  unfold bind at 1, logger_info at 1, emit at 1;
  unfold bind at 1.

(** With every write accepted, [main] of the task script returns after
    ceil(N/b) writes, each followed by its "Processed batch" entry,
    numbered 1, 2, ... in order, and then by one pause of 1000 ms, the
    last write included; the GET and these writes are all its requests,
    and the trace is the three opening events, the four events of each
    batch in turn, and the closing entry. *)
Theorem task_run_succeeds
  (fuel : nat) (is_url : string -> bool) (rt : TaskMigration.Rt) (env : Env)
  (config : Config) (l : list TaskMigration.ZohoTask) (b : Z) :
  EnvSchema_parse is_url env = inr config ->
  zoho_response rt = inr (BodyWith (DArray l)) ->
  BATCH_SIZE config = JInt b -> 1 <= b -> (List.length l < fuel)%nat ->
  (forall j body, twenty_response rt j body = None) ->
  exists w',
    TaskMigration.main fuel is_url rt env start = (Ok tt, w')
    /\ posts w' = batch_count (Z.of_nat (List.length l)) b
    /\ List.length (posted (trace w')) = batch_count (Z.of_nat (List.length l)) b
    /\ pauses (trace w') = batch_count (Z.of_nat (List.length l)) b
    /\ processed_batches (trace w')
       = map (fun j => JInt (Z.of_nat j + 1))
             (seq 0 (batch_count (Z.of_nat (List.length l)) b))
    /\ filter is_http (trace w')
       = (HttpGet (zohoAxios env config) "/crm/v2/Tasks"
          :: map (HttpPost (twentyAxios env config) "/batch/tasks")
                 (posted (trace w')))%list
    /\ trace w'
       = ([ Log LevelInfo [Lit "Starting task migration..."] NoMeta;
            HttpGet (zohoAxios env config) "/crm/v2/Tasks";
            Log LevelInfo
              [Lit "Fetched "; Num (JInt (Z.of_nat (List.length l)));
               Lit " tasks from Zoho CRM"] NoMeta ]
          ++ List.concat
               (map (fun jb =>
                       [ Console (CRecords (snd jb)) "tasks";
                         HttpPost (twentyAxios env config) "/batch/tasks" (snd jb);
                         Log LevelInfo
                           [Lit "Processed batch "; Num (JInt (Z.of_nat (fst jb) + 1))]
                           NoMeta;
                         Sleep 1000 ])
                    (combine (seq 0 (batch_count (Z.of_nat (List.length l)) b))
                             (posted (trace w'))))
          ++ [Log LevelInfo [Lit "Migration completed successfully"] NoMeta])%list.
Proof.
  intros Henv Hget Hsize Hb Hf Hok.
  destruct (main_schedule rt is_url env config l b fuel Henv Hget Hsize Hb Hf)
    as (bodies & evs & out & n & Hs & Hmain).
  pose proof (Schedule_all_written _ _ _ _ _ _ _ _ _ Hs Hok) as ->.
  destruct (Schedule_completed rt _ l b Hb _ _ _ _ Hs ltac:(lia)) as [Hlen _].
  rewrite Z.sub_0_r in Hlen.
  destruct (Schedule_posted _ _ _ _ _ _ _ _ _ Hs) as [Hposted Hhttp].
  pose proof (Schedule_pauses _ _ _ _ _ _ _ _ _ Hs) as Hp. cbn in Hp.
  pose proof (Schedule_processed rt _ l b Hb _ _ _ _ _ Hs 0 ltac:(lia)) as Hpr.
  pose proof (Schedule_written rt _ l b _ _ _ _ _ Hb Hs eq_refl 0%nat ltac:(lia)) as Hw.
  eexists. split; [exact Hmain|]. cbn [trace posts main_result].
  assert (Hposted' : posted (prologue env config (List.length l) ++ evs
                             ++ epilogue Completed) = bodies).
  { rewrite posted_app, posted_app, Hposted. cbn. apply app_nil_r. }
  rewrite Hposted'.
  split; [exact Hlen|]. split; [exact Hlen|]. split.
  { rewrite pauses_app, pauses_app, Hp. cbn. lia. }
  split.
  { rewrite processed_batches_app, processed_batches_app, Hpr, Hp, Hlen. cbn.
    rewrite app_nil_r. apply map_ext. intros j. f_equal. }
  split.
  { rewrite filter_app, filter_app, Hhttp. cbn. rewrite app_nil_r. reflexivity. }
  rewrite <- Hlen, <- Hw. reflexivity.
Qed.

Lemma task_run_succeeds_witness :
  exists w',
    TaskMigration.main 6 https_host_url
      (example_rt (inr (BodyWith (DArray example_tasks))) None)
      (example_env (Some "2")) start
    = (Ok tt, w')
    /\ posts w' = 3%nat /\ pauses (trace w') = 3%nat
    /\ processed_batches (trace w') = [JInt 1; JInt 2; JInt 3]%list.
Proof.
  destruct (task_run_succeeds 6 https_host_url
              (example_rt (inr (BodyWith (DArray example_tasks))) None)
              (example_env (Some "2")) (example_config (JInt 2)) example_tasks 2)
    as (w' & Hrun & Hposts & _ & Hpauses & Hproc & _).
  - reflexivity.
  - reflexivity.
  - reflexivity.
  - lia.
  - cbn. lia.
  - reflexivity.
  - exists w'. split; [exact Hrun|]. split; [exact Hposts|]. split; [exact Hpauses|].
    exact Hproc.
Defined.

(** When the write number q is rejected, the task script paused and
    logged "Processed batch" for the q batches written before it, numbered
    1 to q, and for no other: the rejected batch gets no entry and no
    pause follows it. *)
Theorem task_failure_leaves_no_pause
  (fuel : nat) (is_url : string -> bool) (rt : TaskMigration.Rt) (env : Env)
  (config : Config) (l : list TaskMigration.ZohoTask) (b : Z) (q : nat)
  (e : AxiosErr) :
  EnvSchema_parse is_url env = inr config ->
  zoho_response rt = inr (BodyWith (DArray l)) ->
  BATCH_SIZE config = JInt b -> 1 <= b -> (List.length l < fuel)%nat ->
  (q < batch_count (Z.of_nat (List.length l)) b)%nat ->
  (forall j body, (j < q)%nat -> twenty_response rt j body = None) ->
  (forall body, twenty_response rt q body = Some e) ->
  exists w',
    TaskMigration.main fuel is_url rt env start = (Stop (Exited 1), w')
    /\ pauses (trace w') = q
    /\ processed_batches (trace w') = map (fun j => JInt (Z.of_nat j + 1)) (seq 0 q).
Proof.
  intros Henv Hget Hsize Hb Hf Hq Hbefore Hat.
  destruct (main_schedule rt is_url env config l b fuel Henv Hget Hsize Hb Hf)
    as (bodies & evs & out & n & Hs & Hmain).
  destruct (Schedule_first_failure rt _ l b Hb _ _ _ _ _ Hs q e)
    as (Hout & Hlen & _); try lia; try assumption.
  { intros j body' Hj. apply Hbefore. lia. }
  { rewrite Z.sub_0_r. lia. }
  subst out.
  pose proof (Schedule_pauses _ _ _ _ _ _ _ _ _ Hs) as Hp. cbn in Hp.
  rewrite Hlen, Nat.sub_0_r in Hp. cbn in Hp.
  pose proof (Schedule_processed rt _ l b Hb _ _ _ _ _ Hs 0 ltac:(lia)) as Hpr.
  eexists. split; [exact Hmain|]. cbn [trace]. split.
  - rewrite pauses_app, pauses_app, Hp. cbn. lia.
  - rewrite processed_batches_app, processed_batches_app, Hpr, Hp. cbn.
    rewrite app_nil_r. apply map_ext. intros j. f_equal.
Qed.

Lemma task_failure_leaves_no_pause_witness :
  exists w',
    TaskMigration.main 6 https_host_url
      (example_rt (inr (BodyWith (DArray example_tasks))) (Some 1%nat))
      (example_env (Some "2")) start
    = (Stop (Exited 1), w')
    /\ pauses (trace w') = 1%nat
    /\ processed_batches (trace w') = [JInt 1]%list.
Proof.
  destruct (task_failure_leaves_no_pause 6 https_host_url
              (example_rt (inr (BodyWith (DArray example_tasks))) (Some 1%nat))
              (example_env (Some "2")) (example_config (JInt 2)) example_tasks 2 1
              (mkAxiosErr "Request failed with status code 503"
                 (Some (mkResponse 503 (Some "Service Unavailable")))))
    as (w' & Hrun & Hpauses & Hproc).
  - reflexivity.
  - reflexivity.
  - reflexivity.
  - lia.
  - cbn. lia.
  - vm_compute. lia.
  - intros j body Hj. assert (j = O) by lia. subst j. reflexivity.
  - reflexivity.
  - exists w'. auto.
Defined.

(** *** Batch sizes that are no positive integer *)

Lemma array_slice_empty {A : Type} (l : list A) (i : Z) : array_slice l i i = []%list.
Proof. unfold array_slice. rewrite Z.sub_diag. reflexivity. Qed.

Lemma batches_loop_never_ends
  (rt : TaskMigration.Rt) (cl : Client) (l : list TaskMigration.ZohoTask) (b : Z) :
  b <= 0 -> l <> []%list ->
  (forall j body, twenty_response rt j body = None) ->
  forall fuel i w,
    i <= 0 ->
    exists evs n,
      TaskMigration.batches_loop fuel rt (DArray l) (JInt i) (JInt b) cl w
      = (Stop OutOfFuel, mkWorld (trace w ++ evs) (posts w + fuel) n).
Proof.
  intros Hb Hl Hok. induction fuel as [|fuel IH]; intros i w Hi;
    rewrite batches_loop_eq;
    (destruct (i <? Z.of_nat (List.length l)) eqn:E;
     [| apply Z.ltb_ge in E; destruct l; [contradiction | cbn in E; lia]]).
  - exists []%list, (clock_reads w). destruct w; cbn.
    rewrite app_nil_r, Nat.add_0_r. reflexivity.
  - destruct (processBatch_run rt cl l b i w) as (body & n & _ & Hp).
    unfold bind. rewrite Hp, Hok.
    destruct (IH (i + b) (mkWorld (trace w ++ batch_events cl b i body) (S (posts w)) n))
      as (evs & n' & ->); [lia|].
    cbn [trace posts]. exists (batch_events cl b i body ++ evs)%list, n'.
    rewrite <- app_assoc. f_equal. f_equal. lia.
Qed.

(** A batch size of 0 or less never ends the task script's loop when
    something was fetched and the writes are accepted: whatever the fuel,
    the model is still looping when it runs out, one write per iteration
    behind it. *)
Theorem nonpositive_batch_size_never_ends
  (fuel : nat) (is_url : string -> bool) (rt : TaskMigration.Rt) (env : Env)
  (config : Config) (l : list TaskMigration.ZohoTask) (b : Z) :
  EnvSchema_parse is_url env = inr config ->
  zoho_response rt = inr (BodyWith (DArray l)) ->
  BATCH_SIZE config = JInt b -> b <= 0 -> l <> []%list ->
  (forall j body, twenty_response rt j body = None) ->
  exists w',
    TaskMigration.main fuel is_url rt env start = (Stop OutOfFuel, w')
    /\ posts w' = fuel.
Proof.
  intros Henv Hget Hsize Hb Hl Hok.
  destruct (batches_loop_never_ends rt (twentyAxios env config) l b Hb Hl Hok fuel 0
              (mkWorld (prologue env config (List.length l)) 0 0) ltac:(lia))
    as (evs & n & Hloop).
  eexists. enter_task_main Henv Hget. rewrite Hsize.
  fold (zohoAxios env config) (twentyAxios env config).
  change (add_event _ (add_event _ (add_event _ start)))
    with (mkWorld (prologue env config (List.length l)) 0 0).
  rewrite Hloop. split; reflexivity.
Qed.

Lemma nonpositive_batch_size_never_ends_witness :
  exists w',
    TaskMigration.main 40 https_host_url
      (example_rt (inr (BodyWith (DArray example_tasks))) None)
      (example_env (Some "0")) start
    = (Stop OutOfFuel, w')
    /\ posts w' = 40%nat.
Proof.
  apply (nonpositive_batch_size_never_ends 40 https_host_url
           (example_rt (inr (BodyWith (DArray example_tasks))) None)
           (example_env (Some "0")) (example_config (JInt 0)) example_tasks 0).
  - reflexivity.
  - reflexivity.
  - reflexivity.
  - lia.
  - discriminate.
  - reflexivity.
Defined.

(** A batch size that is NaN (a BATCH_SIZE that is no number): when
    something was fetched, the task script writes one empty batch, logs
    "Processed batch NaN", pauses once and reports success; no fetched
    record is written. *)
Theorem NaN_batch_size_writes_one_empty_batch
  (fuel : nat) (is_url : string -> bool) (rt : TaskMigration.Rt) (env : Env)
  (config : Config) (l : list TaskMigration.ZohoTask) :
  EnvSchema_parse is_url env = inr config ->
  zoho_response rt = inr (BodyWith (DArray l)) ->
  BATCH_SIZE config = JNaN -> l <> []%list ->
  twenty_response rt 0 [] = None ->
  TaskMigration.main (S fuel) is_url rt env start
  = (Ok tt,
     mkWorld (prologue env config (List.length l)
              ++ [ Console (CRecords []) "tasks";
                   HttpPost (twentyAxios env config) "/batch/tasks" [];
                   Log LevelInfo [Lit "Processed batch "; Num JNaN] NoMeta;
                   Sleep 1000;
                   Log LevelInfo [Lit "Migration completed successfully"] NoMeta ])
             1 0).
Proof.
  intros Henv Hget Hsize Hl Hok.
  enter_task_main Henv Hget. rewrite Hsize.
  fold (zohoAxios env config) (twentyAxios env config).
  change (add_event _ (add_event _ (add_event _ start)))
    with (mkWorld (prologue env config (List.length l)) 0 0).
  cbn [TaskMigration.batches_loop]. unfold bind at 1.
  cbn [prop_length ret length_number js_lt].
  assert (Hpos : (0 <? Z.of_nat (List.length l)) = true).
  { apply Z.ltb_lt. destruct l; [contradiction | cbn; lia]. }
  rewrite Hpos. unfold bind at 1.
  unfold TaskMigration.processBatch. cbn [js_add ToIntegerOrInfinity].
  rewrite array_slice_empty. cbn [array_map array_map_from].
  unfold bind at 1, ret at 1. unfold bind at 1.
  rewrite createTwentyTasks_run. cbn [posts trace clock_reads]. rewrite Hok.
  cbn [js_floor_div js_add].
  destruct fuel; cbn [TaskMigration.batches_loop]; unfold bind, logger_info, sleep, emit,
    add_event, prop_length, ret; cbn [trace posts clock_reads length_number js_lt];
    rewrite <- !app_assoc; reflexivity.
Qed.

Lemma NaN_batch_size_writes_one_empty_batch_witness :
  posted (trace (snd (TaskMigration.main 1 https_host_url
                        (example_rt (inr (BodyWith (DArray example_tasks))) None)
                        (example_env (Some "fifty")) start)))
  = [[]]%list.
Proof.
  rewrite (NaN_batch_size_writes_one_empty_batch 0 https_host_url
             (example_rt (inr (BodyWith (DArray example_tasks))) None)
             (example_env (Some "fifty")) (example_config JNaN) example_tasks).
  - reflexivity.
  - reflexivity.
  - reflexivity.
  - reflexivity.
  - discriminate.
  - reflexivity.
Defined.

(** ** Further properties of the contact script *)

Lemma contact_loop_written
  (rt : ContactMigration.Rt) (cl : Client) (l : list ContactMigration.ZohoContact)
  (b : Z) (fuel : nat)
  (w : World ContactMigration.ZohoContact ContactMigration.TwentyContact) :
  1 <= b -> (List.length l < fuel)%nat ->
  (forall j body, twenty_response rt j body = None) ->
  exists evs,
    ContactMigration.batches_loop fuel rt (DArray l) (JInt 0) (JInt b) cl w
    = (Ok tt,
       mkWorld (trace w ++ evs) (posts w + List.length (source_batches l b))
               (clock_reads w))
    /\ posted evs
       = map (array_mapi ContactMigration.mapToTwentyContact) (source_batches l b).
Proof.
  intros Hb Hf Hok.
  destruct (contact_batches_loop_schedule rt cl l b Hb fuel 0 w ltac:(lia))
    as (bodies & evs & out & Hs & Hl).
  pose proof (ContactSchedule_all_written _ _ _ _ _ _ _ _ _ Hs Hok) as ->.
  pose proof (ContactSchedule_completed rt cl l b Hb _ _ _ _ Hs) as Hlen.
  rewrite Z.sub_0_r in Hlen.
  destruct (ContactSchedule_posted _ _ _ _ _ _ _ _ _ Hs) as [Hposted _].
  pose proof (ContactSchedule_bodies _ _ _ _ _ _ _ _ _ Hs) as Hbodies.
  exists evs. unfold source_batches. rewrite slices_length, <- Hlen.
  split; [exact Hl|]. rewrite Hposted. exact Hbodies.
Qed.



(** In the contact script every batch written is numbered from 1: the
    positions of the k-th write are 1, 2, ..., up to the size of the k-th
    slice, whatever came before it. *)
Theorem contact_positions_per_batch
  (rt : ContactMigration.Rt) (cl : Client) (l : list ContactMigration.ZohoContact)
  (b : Z) (fuel : nat) :
  1 <= b -> (List.length l < fuel)%nat ->
  (forall j body, twenty_response rt j body = None) ->
  exists w',
    ContactMigration.batches_loop fuel rt (DArray l) (JInt 0) (JInt b) cl start = (Ok tt, w')
    /\ map (map ContactMigration.position) (posted (trace w'))
       = map (fun batch => map (fun j => JInt (Z.of_nat j + 1)) (seq 0 (List.length batch)))
             (source_batches l b).
Proof.
  intros Hb Hf Hok.
  destruct (contact_loop_written rt cl l b fuel start Hb Hf Hok) as (evs & Hl & Hposted).
  eexists. split; [exact Hl|]. cbn [trace start app].
  rewrite Hposted, map_map. apply map_ext. intros batch.
  unfold array_mapi. rewrite contact_batch_positions.
  apply map_ext. intros j. f_equal.
Qed.

Lemma contact_positions_per_batch_witness :
  exists w',
    ContactMigration.batches_loop 6 (example_contacts_rt (inr (BodyWith (DArray example_contacts))))
      (DArray example_contacts) (JInt 0) (JInt 2)
      (twentyAxios (example_env (Some "2")) (example_config (JInt 2))) start
    = (Ok tt, w')
    /\ map (map ContactMigration.position) (posted (trace w'))
       = [[JInt 1; JInt 2]; [JInt 1; JInt 2]; [JInt 1]]%list.
Proof.
  destruct (contact_positions_per_batch
              (example_contacts_rt (inr (BodyWith (DArray example_contacts))))
              (twentyAxios (example_env (Some "2")) (example_config (JInt 2)))
              example_contacts 2 6)
    as (w' & Hrun & Hpos); [lia | cbn; lia | reflexivity |].
  exists w'. split; [exact Hrun | exact Hpos].
Defined.

(** When the destination rejects the write number q of the contact
    script and accepted the earlier ones, [main] ends with
    [process.exit(1)] after q + 1 writes, the mappings of the first q + 1
    slices; the GET and these writes are all its requests, and the
    rejected write is followed by the error entries only. *)
Theorem contact_write_failure_aborts
  (fuel : nat) (is_url : string -> bool) (rt : ContactMigration.Rt) (env : Env)
  (config : Config) (l : list ContactMigration.ZohoContact) (b : Z) (q : nat)
  (e : AxiosErr) :
  EnvSchema_parse is_url env = inr config ->
  zoho_response rt = inr (BodyWith (DArray l)) ->
  BATCH_SIZE config = JInt b -> 1 <= b -> (List.length l < fuel)%nat ->
  (q < batch_count (Z.of_nat (List.length l)) b)%nat ->
  (forall j body, (j < q)%nat -> twenty_response rt j body = None) ->
  (forall body, twenty_response rt q body = Some e) ->
  exists w' pre body,
    ContactMigration.main fuel is_url rt env start = (Stop (Exited 1), w')
    /\ posted (trace w')
       = map (array_mapi ContactMigration.mapToTwentyContact) (slices (S q) l b 0)
    /\ posts w' = S q
    /\ filter is_http (trace w')
       = (HttpGet (zohoAxios env config) "/crm/v2/Contacts"
          :: map (HttpPost (twentyAxios env config) "/batch/people")
                 (posted (trace w')))%list
    /\ trace w'
       = (pre ++ [HttpPost (twentyAxios env config) "/batch/people" body; api_error_log e]
              ++ contact_epilogue (Failed e))%list.
Proof.
  intros Henv Hget Hsize Hb Hf Hq Hbefore Hat.
  destruct (contact_main_schedule rt is_url env config l b fuel Henv Hget Hsize Hb Hf)
    as (bodies & evs & out & Hs & Hmain).
  destruct (ContactSchedule_first_failure rt _ l b Hb _ _ _ _ _ Hs q e)
    as (-> & Hlen & pre & body & ->); try lia; try assumption.
  { intros j body' Hj. apply Hbefore. lia. }
  { rewrite Z.sub_0_r. lia. }
  destruct (ContactSchedule_posted _ _ _ _ _ _ _ _ _ Hs) as [Hposted Hhttp].
  pose proof (ContactSchedule_bodies _ _ _ _ _ _ _ _ _ Hs) as Hbodies.
  rewrite Nat.sub_0_r in Hlen. rewrite Hlen in Hbodies.
  eexists _, (contact_prologue env config l ++ pre)%list, body.
  split; [exact Hmain|]. cbn [trace posts].
  assert (Hposted' :
            posted (contact_prologue env config l
                    ++ (pre ++ [HttpPost (twentyAxios env config) "/batch/people" body;
                                api_error_log e])
                    ++ contact_epilogue (Failed e)) = bodies).
  { rewrite posted_app, (posted_app (pre ++ _)), Hposted. cbn. apply app_nil_r. }
  rewrite Hposted'. repeat split.
  - exact Hbodies.
  - exact Hlen.
  - rewrite filter_app, (filter_app _ (pre ++ _)), Hhttp. cbn.
    rewrite app_nil_r. reflexivity.
  - rewrite <- !app_assoc. reflexivity.
Qed.

Lemma contact_write_failure_aborts_witness :
  exists w',
    ContactMigration.main 6 https_host_url
      (example_contacts_rt_failing (inr (BodyWith (DArray example_contacts))) (Some 1%nat))
      (example_env (Some "2")) start
    = (Stop (Exited 1), w')
    /\ posts w' = 2%nat.
Proof.
  destruct (contact_write_failure_aborts 6 https_host_url
              (example_contacts_rt_failing (inr (BodyWith (DArray example_contacts)))
                 (Some 1%nat))
              (example_env (Some "2")) (example_config (JInt 2)) example_contacts 2 1
              (mkAxiosErr "Request failed with status code 503"
                 (Some (mkResponse 503 (Some "Service Unavailable")))))
    as (w' & _ & _ & Hrun & _ & Hposts & _).
  - reflexivity.
  - reflexivity.
  - reflexivity.
  - lia.
  - cbn. lia.
  - vm_compute. lia.
  - intros j body Hj. assert (j = O) by lia. subst j. reflexivity.
  - reflexivity.
  - exists w'. auto.
Defined.

(** When the source rejects the GET of the contact script, [main] logs
    the failure and ends with [process.exit(1)]: nothing is written and
    no batch is formed. *)
Theorem contact_fetch_failure_writes_nothing
  (fuel : nat) (is_url : string -> bool) (rt : ContactMigration.Rt) (env : Env)
  (config : Config) (e : AxiosErr) :
  EnvSchema_parse is_url env = inr config ->
  zoho_response rt = inl e ->
  ContactMigration.main fuel is_url rt env start
  = (Stop (Exited 1),
     mkWorld [ Log LevelInfo [Lit "Starting contact migration..."] NoMeta;
               HttpGet (zohoAxios env config) "/crm/v2/Contacts";
               api_error_log e;
               Log LevelError [Lit "Migration failed"] (ErrorMeta (api_error e));
               Log LevelError [Lit "Unexpected error"] (ErrorMeta (api_error e));
               Exit 1 ] 0 0).
Proof.
  intros Henv Hget.
  unfold ContactMigration.main, try_catch at 1. rewrite Henv.
  unfold bind at 1, ret at 1.
  unfold ContactMigration.migrateContacts, try_catch at 1.
  unfold bind at 1, logger_info at 1, emit at 1.
  unfold bind at 1, ContactMigration.fetchZohoContacts, try_catch at 1, bind at 1,
    axios_get.
  rewrite Hget. reflexivity.
Qed.

Lemma contact_fetch_failure_writes_nothing_witness :
  posts (snd (ContactMigration.main 6 https_host_url
                (example_contacts_rt
                   (inl (mkAxiosErr "connect ECONNREFUSED 127.0.0.1:443" None)))
                (example_env None) start))
  = 0%nat.
Proof.
  rewrite (contact_fetch_failure_writes_nothing 6 https_host_url
             (example_contacts_rt
                (inl (mkAxiosErr "connect ECONNREFUSED 127.0.0.1:443" None)))
             (example_env None) (example_config (JInt 50))
             (mkAxiosErr "connect ECONNREFUSED 127.0.0.1:443" None));
    reflexivity.
Defined.

(** ** Further properties shared by the two scripts *)

Lemma validateDate_idempotent_witness :
  TaskMigration.validateDate
    (example_rt (inr (BodyWith (DArray example_tasks))) None)
    (toISOString 1710460800000) start
  = (Ok (toISOString 1710460800000), start).
Proof.
  apply (validateDate_idempotent
           (example_rt (inr (BodyWith (DArray example_tasks))) None)
           1710460800000 start).
  - vm_compute. split; discriminate.
  - reflexivity.
Defined.

(** A 2xx answer whose body is undefined or null makes the fetch of
    either script fail as an API error: the TypeError of reading [data]
    goes through [handleApiError], is logged with status code 500 and
    propagates as "API Error: " followed by the engine's message. *)
Theorem nullish_body_is_reported_as_api_error :
  let message (n : Nullish) :=
    match n with
    | Undefined => "Cannot read properties of undefined (reading 'data')"
    | Null => "Cannot read properties of null (reading 'data')"
    end in
  (forall dp clock tw n cl w,
      TaskMigration.fetchZohoTasks (mkRuntime dp clock (inr (BodyNullish n)) tw) cl w
      = (Throw (PlainError ("API Error: " ++ message n)),
         mkWorld (trace w ++ [HttpGet cl "/crm/v2/Tasks";
                              Log LevelError [Lit "API Error"] (ApiMeta 500 (message n))])
                 (posts w) (clock_reads w)))
  /\ (forall dp clock tw n cl w,
        ContactMigration.fetchZohoContacts (mkRuntime dp clock (inr (BodyNullish n)) tw) cl w
        = (Throw (PlainError ("API Error: " ++ message n)),
           mkWorld (trace w ++ [HttpGet cl "/crm/v2/Contacts";
                                Log LevelError [Lit "API Error"] (ApiMeta 500 (message n))])
                   (posts w) (clock_reads w))).
Proof.
  intros message. split; intros dp clock tw n cl w.
  - unfold TaskMigration.fetchZohoTasks, try_catch, bind, axios_get, handleApiError,
      truthy, logger_error, emit, throw, add_event.
    destruct n; cbn; rewrite <- app_assoc; reflexivity.
  - unfold ContactMigration.fetchZohoContacts, try_catch, bind, axios_get, handleApiError,
      truthy, logger_error, emit, throw, add_event.
    destruct n; cbn; rewrite <- app_assoc; reflexivity.
Qed.



(** The issues of a failed validation name exactly the required keys
    that failed: a base URL that is absent or no URL, an API key that is
    absent or empty; they are at most four and never name BATCH_SIZE or
    RATE_LIMIT_PER_SECOND. *)
Theorem EnvSchema_issues_name_failing_keys (is_url : string -> bool) (env : Env) :
  let issues := issues_of (EnvSchema_parse is_url env) in
  (names_key "ZOHO_BASE_URL" issues = false
   <-> exists s, env_ZOHO_BASE_URL env = Some s /\ is_url s = true)
  /\ (names_key "ZOHO_API_KEY" issues = false
      <-> exists s, env_ZOHO_API_KEY env = Some s /\ s <> "")
  /\ (names_key "TWENTY_BASE_URL" issues = false
      <-> exists s, env_TWENTY_BASE_URL env = Some s /\ is_url s = true)
  /\ (names_key "TWENTY_API_KEY" issues = false
      <-> exists s, env_TWENTY_API_KEY env = Some s /\ s <> "")
  /\ names_key "BATCH_SIZE" issues = false
  /\ names_key "RATE_LIMIT_PER_SECOND" issues = false
  /\ (List.length issues <= 4)%nat.
Proof.
  cbv zeta. destruct env as [a c d f g h].
  unfold EnvSchema_parse, z_string_url, z_string_min1.
  cbn [env_ZOHO_BASE_URL env_ZOHO_API_KEY env_TWENTY_BASE_URL env_TWENTY_API_KEY
       env_BATCH_SIZE env_RATE_LIMIT_PER_SECOND].
  destruct a as [a|]; [destruct (is_url a) eqn:Ea|];
    (destruct c as [c|]; [destruct (String.eqb c "") eqn:Ec|]);
    (destruct d as [d|]; [destruct (is_url d) eqn:Ed|]);
    (destruct f as [f|]; [destruct (String.eqb f "") eqn:Ef|]);
    cbn;
    repeat split; intros;
    repeat match goal with
           | H : exists _, _ |- _ => destruct H as (? & ? & ?)
           | H : Some _ = Some _ |- _ => injection H as H; subst
           end;
    try reflexivity; try discriminate; try lia;
    try (eexists; split;
         [reflexivity | first [assumption | apply String.eqb_neq; assumption]]);
    try (exfalso;
         match goal with
         | H : String.eqb ?x "" = true, H' : ?x <> "" |- _ =>
             apply String.eqb_eq in H; contradiction
         end);
    try congruence.
Qed.

(** When nothing was fetched, [main] of either script returns having
    written nothing, whatever the batch size is, a size of 0, NaN or one
    the model does not compute included, and whatever the fuel. *)
Theorem empty_fetch_completes
  (is_url : string -> bool) (env : Env) (config : Config) :
  EnvSchema_parse is_url env = inr config ->
  (forall fuel dp clock tw,
      TaskMigration.main fuel is_url
        (mkRuntime dp clock (inr (BodyWith (DArray []))) tw) env start
      = (Ok tt,
         mkWorld [ Log LevelInfo [Lit "Starting task migration..."] NoMeta;
                   HttpGet (zohoAxios env config) "/crm/v2/Tasks";
                   Log LevelInfo [Lit "Fetched "; Num (JInt 0); Lit " tasks from Zoho CRM"]
                       NoMeta;
                   Log LevelInfo [Lit "Migration completed successfully"] NoMeta ] 0 0))
  /\ (forall fuel dp clock tw,
        ContactMigration.main fuel is_url
          (mkRuntime dp clock (inr (BodyWith (DArray []))) tw) env start
        = (Ok tt,
           mkWorld [ Log LevelInfo [Lit "Starting contact migration..."] NoMeta;
                     HttpGet (zohoAxios env config) "/crm/v2/Contacts";
                     Console (CData (DArray [])) "response.data.data";
                     Log LevelInfo
                       [Lit "Fetched "; Num (JInt 0); Lit " contacts from Zoho CRM"] NoMeta;
                     Log LevelInfo [Lit "Migration completed successfully"] NoMeta ] 0 0)).
Proof.
  intros Henv. split; intros fuel dp clock tw.
  - unfold TaskMigration.main, try_catch at 1. rewrite Henv.
    destruct fuel; reflexivity.
  - unfold ContactMigration.main, try_catch at 1. rewrite Henv.
    destruct fuel; reflexivity.
Qed.

Lemma empty_fetch_completes_witness :
  fst (TaskMigration.main 0 https_host_url
         (mkRuntime iso_parse example_clock (inr (BodyWith (DArray []))) (fun _ _ => None))
         (example_env (Some "2.5")) start)
  = Ok tt.
Proof.
  rewrite (proj1 (empty_fetch_completes https_host_url (example_env (Some "2.5"))
                    (example_config JOther) eq_refl)).
  reflexivity.
Defined.



(** ** Failures of the two APIs, run by run *)

(** C8, amended: every rejection [e] of a request, a transport failure or
    an answer outside 2xx, is logged with the status code of its response
    (500 when there is no response, or none but 0) and with its message
    (the message of the response body when there is a non-empty one, the
    error's own message otherwise), and propagates as a plain Error whose
    only content is the text "API Error: " followed by that message;
    [main] logs that error twice and calls [process.exit(1)].  This holds
    for the GET and the POST of both scripts. *)
Theorem api_failures_propagate_the_message (e : AxiosErr) :
  let statusCode :=
    match err_response e with
    | Some r => if response_status r =? 0 then 500 else response_status r
    | None => 500
    end in
  let message :=
    match err_response e with
    | Some {| response_data_message := Some m |} =>
        if String.eqb m "" then err_message e else m
    | _ => err_message e
    end in
  let thrown := PlainError ("API Error: " ++ message) in
  (statusCode_of (AxiosError e) = statusCode
   /\ message_of (AxiosError e) = message
   /\ api_error e = thrown)
  /\ (forall dp clock tw cl w,
        TaskMigration.fetchZohoTasks (mkRuntime dp clock (inl e) tw) cl w
        = (Throw thrown,
           mkWorld (trace w
                    ++ [HttpGet cl "/crm/v2/Tasks";
                        Log LevelError [Lit "API Error"] (ApiMeta statusCode message)])
                   (posts w) (clock_reads w)))
  /\ (forall dp clock tw cl w,
        ContactMigration.fetchZohoContacts (mkRuntime dp clock (inl e) tw) cl w
        = (Throw thrown,
           mkWorld (trace w
                    ++ [HttpGet cl "/crm/v2/Contacts";
                        Log LevelError [Lit "API Error"] (ApiMeta statusCode message)])
                   (posts w) (clock_reads w)))
  /\ (forall rt cl body w,
        twenty_response rt (posts w) body = Some e ->
        TaskMigration.createTwentyTasks rt cl body w
        = (Throw thrown,
           mkWorld (trace w
                    ++ [Console (CRecords body) "tasks";
                        HttpPost cl "/batch/tasks" body;
                        Log LevelError [Lit "API Error"] (ApiMeta statusCode message)])
                   (S (posts w)) (clock_reads w)))
  /\ (forall rt cl body w,
        twenty_response rt (posts w) body = Some e ->
        ContactMigration.createTwentyContacts rt cl body w
        = (Throw thrown,
           mkWorld (trace w
                    ++ [HttpPost cl "/batch/people" body;
                        Log LevelError [Lit "API Error"] (ApiMeta statusCode message)])
                   (S (posts w)) (clock_reads w)))
  /\ (forall fuel is_url env config rt,
        EnvSchema_parse is_url env = inr config ->
        zoho_response rt = inl e ->
        TaskMigration.main fuel is_url rt env start
        = (Stop (Exited 1),
           mkWorld [Log LevelInfo [Lit "Starting task migration..."] NoMeta;
                    HttpGet (zohoAxios env config) "/crm/v2/Tasks";
                    Log LevelError [Lit "API Error"] (ApiMeta statusCode message);
                    Log LevelError [Lit "Migration failed"] (ErrorMeta thrown);
                    Log LevelError [Lit "Unexpected error"] (ErrorMeta thrown);
                    Exit 1] 0 0))
  /\ (forall fuel is_url env config rt,
        EnvSchema_parse is_url env = inr config ->
        zoho_response rt = inl e ->
        ContactMigration.main fuel is_url rt env start
        = (Stop (Exited 1),
           mkWorld [Log LevelInfo [Lit "Starting contact migration..."] NoMeta;
                    HttpGet (zohoAxios env config) "/crm/v2/Contacts";
                    Log LevelError [Lit "API Error"] (ApiMeta statusCode message);
                    Log LevelError [Lit "Migration failed"] (ErrorMeta thrown);
                    Log LevelError [Lit "Unexpected error"] (ErrorMeta thrown);
                    Exit 1] 0 0))
  /\ (forall fuel is_url (rt : TaskMigration.Rt) env config l b q,
        EnvSchema_parse is_url env = inr config ->
        zoho_response rt = inr (BodyWith (DArray l)) ->
        BATCH_SIZE config = JInt b -> 1 <= b -> (List.length l < fuel)%nat ->
        (q < batch_count (Z.of_nat (List.length l)) b)%nat ->
        (forall j body, (j < q)%nat -> twenty_response rt j body = None) ->
        (forall body, twenty_response rt q body = Some e) ->
        exists w' pre body,
          TaskMigration.main fuel is_url rt env start = (Stop (Exited 1), w')
          /\ trace w'
             = (pre ++ [HttpPost (twentyAxios env config) "/batch/tasks" body;
                        Log LevelError [Lit "API Error"] (ApiMeta statusCode message);
                        Log LevelError [Lit "Migration failed"] (ErrorMeta thrown);
                        Log LevelError [Lit "Unexpected error"] (ErrorMeta thrown);
                        Exit 1])%list)
  /\ (forall fuel is_url (rt : ContactMigration.Rt) env config l b q,
        EnvSchema_parse is_url env = inr config ->
        zoho_response rt = inr (BodyWith (DArray l)) ->
        BATCH_SIZE config = JInt b -> 1 <= b -> (List.length l < fuel)%nat ->
        (q < batch_count (Z.of_nat (List.length l)) b)%nat ->
        (forall j body, (j < q)%nat -> twenty_response rt j body = None) ->
        (forall body, twenty_response rt q body = Some e) ->
        exists w' pre body,
          ContactMigration.main fuel is_url rt env start = (Stop (Exited 1), w')
          /\ trace w'
             = (pre ++ [HttpPost (twentyAxios env config) "/batch/people" body;
                        Log LevelError [Lit "API Error"] (ApiMeta statusCode message);
                        Log LevelError [Lit "Migration failed"] (ErrorMeta thrown);
                        Log LevelError [Lit "Unexpected error"] (ErrorMeta thrown);
                        Exit 1])%list).
Proof.
  intros statusCode message thrown.
  assert (Hcode : statusCode_of (AxiosError e) = statusCode) by reflexivity.
  assert (Hmsg : message_of (AxiosError e) = message).
  { unfold message_of, message, error_response, error_message.
    destruct (err_response e) as [[st [m|]]|]; reflexivity. }
  assert (Hthrown : api_error e = thrown).
  { unfold api_error, thrown. rewrite Hmsg. reflexivity. }
  assert (Hlog : forall R D : Type,
             @api_error_log R D e
             = Log LevelError [Lit "API Error"] (ApiMeta statusCode message)).
  { intros R D. unfold api_error_log. rewrite Hcode, Hmsg. reflexivity. }
  clearbody statusCode message.
  split; [auto|]. split.
  { intros. unfold TaskMigration.fetchZohoTasks, try_catch, bind, axios_get, handleApiError,
      truthy, logger_error, emit, throw, add_event. cbn [zoho_response trace posts clock_reads].
    rewrite Hcode, Hmsg. cbn. rewrite <- app_assoc. reflexivity. }
  split.
  { intros. unfold ContactMigration.fetchZohoContacts, try_catch, bind, axios_get,
      handleApiError, truthy, logger_error, emit, throw, add_event.
    cbn [zoho_response trace posts clock_reads].
    rewrite Hcode, Hmsg. cbn. rewrite <- app_assoc. reflexivity. }
  split.
  { intros rt cl body w H.
    unfold TaskMigration.createTwentyTasks, try_catch, bind, console_log, emit, axios_post,
      add_event. cbn [trace posts clock_reads]. rewrite H.
    unfold handleApiError, truthy, bind, logger_error, emit, throw, add_event.
    cbn [trace posts clock_reads]. rewrite Hcode, Hmsg. cbn.
    rewrite <- !app_assoc. reflexivity. }
  split.
  { intros rt cl body w H.
    unfold ContactMigration.createTwentyContacts, try_catch, axios_post. rewrite H.
    unfold handleApiError, truthy, bind, logger_error, emit, throw, add_event.
    cbn [trace posts clock_reads]. rewrite Hcode, Hmsg. cbn.
    rewrite <- !app_assoc. reflexivity. }
  split.
  { intros fuel is_url env config rt Henv Hget.
    unfold TaskMigration.main, try_catch at 1. rewrite Henv.
    unfold bind at 1, ret at 1.
    unfold TaskMigration.migrateTasks, try_catch at 1.
    unfold bind at 1, logger_info at 1, emit at 1.
    unfold bind at 1, TaskMigration.fetchZohoTasks, try_catch at 1, bind at 1, axios_get.
    rewrite Hget.
    unfold handleApiError, truthy, bind, logger_error, emit, throw, add_event.
    cbn [trace posts clock_reads]. rewrite Hcode, Hmsg. reflexivity. }
  split.
  { intros fuel is_url env config rt Henv Hget.
    unfold ContactMigration.main, try_catch at 1. rewrite Henv.
    unfold bind at 1, ret at 1.
    unfold ContactMigration.migrateContacts, try_catch at 1.
    unfold bind at 1, logger_info at 1, emit at 1.
    unfold bind at 1, ContactMigration.fetchZohoContacts, try_catch at 1, bind at 1,
      axios_get.
    rewrite Hget.
    unfold handleApiError, truthy, bind, logger_error, emit, throw, add_event.
    cbn [trace posts clock_reads]. rewrite Hcode, Hmsg. reflexivity. }
  split.
  { intros fuel is_url rt env config l b q Henv Hget Hsize Hb Hf Hq Hbefore Hat.
    destruct (main_schedule rt is_url env config l b fuel Henv Hget Hsize Hb Hf)
      as (bodies & evs & out & n & Hs & Hmain).
    destruct (Schedule_first_failure rt _ l b Hb _ _ _ _ _ Hs q e)
      as (-> & Hlen & pre & body & ->); try lia; try assumption.
    { intros j body' Hj. apply Hbefore. lia. }
    { rewrite Z.sub_0_r. lia. }
    eexists _, (prologue env config (List.length l) ++ pre
                ++ [Console (CRecords body) "tasks"])%list, body.
    split; [exact Hmain|]. cbn [trace].
    unfold failure_events, epilogue. rewrite Hcode, Hmsg, Hthrown.
    rewrite <- !app_assoc. reflexivity. }
  intros fuel is_url rt env config l b q Henv Hget Hsize Hb Hf Hq Hbefore Hat.
  destruct (contact_main_schedule rt is_url env config l b fuel Henv Hget Hsize Hb Hf)
    as (bodies & evs & out & Hs & Hmain).
  destruct (ContactSchedule_first_failure rt _ l b Hb _ _ _ _ _ Hs q e)
    as (-> & Hlen & pre & body & ->); try lia; try assumption.
  { intros j body' Hj. apply Hbefore. lia. }
  { rewrite Z.sub_0_r. lia. }
  eexists _, (contact_prologue env config l ++ pre)%list, body.
  split; [exact Hmain|]. cbn [trace].
  unfold contact_epilogue. rewrite Hlog, Hthrown.
  rewrite <- !app_assoc. reflexivity.
Qed.
